(** * TAAR profile fetcher: a shallow embedding of [taar/profile_fetcher.py]

    The development follows the layout of the Python module:
    - the Python values and exceptions the module manipulates;
    - the external libraries ([zlib], [json], [str.encode]/[bytes.decode],
      the reserved test identifiers of [taar.recommenders]) as an interface;
    - the two storage controllers, [BigTableProfileController] and
      [ProfileController], over an explicit model of the two stores;
    - [ProfileFetcher], with its lazily constructed client;
    - the properties of the read path, the write path and normalization. *)

From Stdlib Require Import ZArith String List Bool Lia.
From Stdlib.Strings Require Import Byte Ascii.
From Corelib Require Import PrimFloat.
From stdpp Require Import gmap strings pretty.

Import ListNotations.
Local Open Scope Z_scope.
Local Open Scope string_scope.

(** ** Python values *)

(** The values [json.loads] can produce, which are the values a raw profile
    record holds: [None], booleans, integers, floats, strings, lists and
    dictionaries with string keys. A dictionary is kept as the sequence of
    its items in insertion order (iteration and [json.dumps] follow that
    order); [dict_lookup] reads the first item with the given key. *)
#[local] Unset Elimination Schemes.
Inductive value : Type :=
| VNone
| VBool (b : bool)
| VInt (z : Z)
| VFloat (f : float)
| VStr (s : string)
| VList (items : list value)
| VDict (items : list (string * value)).
#[local] Set Elimination Schemes.

Definition bytes : Type := list byte.

(** The exceptions of class [Exception] that the operations of the module
    can raise. A [KeyError] carries the missing key, a bytes key in its
    source spelling. *)
Inductive exn : Type :=
| KeyError (key : string)
| IndexError
| AttributeError (attr : string)
| TypeError
| ZlibError
| UnicodeDecodeError
| JSONDecodeError
| TransportError (detail : string)
| CredentialsError (detail : string)
| AssertionError.

Inductive result (A : Type) : Type :=
| Ok (a : A)
| Raise (e : exn).
Arguments Ok {A} a.
Arguments Raise {A} e.

Definition rbind {A B} (r : result A) (k : A -> result B) : result B :=
  match r with
  | Ok a => k a
  | Raise e => Raise e
  end.

Declare Scope py_scope.
Delimit Scope py_scope with py.
Notation "x <- r ;; k" := (rbind r (fun x => k))
  (at level 100, r at next level, right associativity) : py_scope.

(** [d.get(key)] on the items of a dictionary. *)
Fixpoint dict_lookup (key : string) (items : list (string * value)) : option value :=
  match items with
  | [] => None
  | (k, v) :: rest => if String.eqb k key then Some v else dict_lookup key rest
  end.

(** [o.get(key, default)]: only dictionaries have the method. *)
Definition py_get (o : value) (key : string) (default : value) : result value :=
  match o with
  | VDict items =>
      match dict_lookup key items with
      | Some v => Ok v
      | None => Ok default
      end
  | _ => Raise (AttributeError "get")
  end.

(** [o[key]] with a string key: a missing key of a dictionary is a
    [KeyError]; a list or a string takes no string index, and the other
    values are not subscriptable. *)
Definition py_getitem (o : value) (key : string) : result value :=
  match o with
  | VDict items =>
      match dict_lookup key items with
      | Some v => Ok v
      | None => Raise (KeyError key)
      end
  | _ => Raise TypeError
  end.

(** Truth value testing, as [not x] does it. *)
Definition py_truthy (v : value) : bool :=
  match v with
  | VNone => false
  | VBool b => b
  | VInt z => negb (Z.eqb z 0)
  | VFloat f => negb (PrimFloat.eqb f 0%float)
  | VStr s => negb (String.eqb s "")
  | VList items => match items with [] => false | _ :: _ => true end
  | VDict items => match items with [] => false | _ :: _ => true end
  end.

Fixpoint chars_of (s : string) : list value :=
  match s with
  | EmptyString => []
  | String c rest => VStr (String c EmptyString) :: chars_of rest
  end.

(** The elements a [for] clause draws from a value: the items of a list,
    the keys of a dictionary, the characters of a string; the other values
    are not iterable. *)
Definition py_iter (v : value) : result (list value) :=
  match v with
  | VList items => Ok items
  | VDict items => Ok (map (fun kv => VStr (fst kv)) items)
  | VStr s => Ok (chars_of s)
  | _ => Raise TypeError
  end.

(** ** Normalization (the second half of [ProfileFetcher.get]) *)

(** The comprehension
    [[addon["addon_id"] for addon in ... if not addon.get("is_system", False)]]
    over the elements already drawn from the iterable: the condition is
    evaluated first, the subscript only for the entries that pass it. *)
Fixpoint addon_ids_of (addons : list value) : result (list value) :=
  match addons with
  | [] => Ok []
  | addon :: rest =>
      (is_system <- py_get addon "is_system" (VBool false) ;;
       if py_truthy is_system then addon_ids_of rest
       else
         addon_id <- py_getitem addon "addon_id" ;;
         ids <- addon_ids_of rest ;;
         Ok (addon_id :: ids))%py
  end.

(** Lines 173-177. *)
Definition addon_ids (profile_data : value) : result (list value) :=
  (active_addons <- py_get profile_data "active_addons" (VList []) ;;
   addons <- py_iter active_addons ;;
   addon_ids_of addons)%py.

(** Lines 173-197: the profile built from the record the client returned. *)
Definition normalize (client_id : string) (profile_data : value) : result value :=
  (addon_ids <- addon_ids profile_data ;;
   geo_city <- py_get profile_data "city" (VStr "") ;;
   subsession_length <- py_get profile_data "subsession_length" (VInt 0) ;;
   locale <- py_get profile_data "locale" (VStr "") ;;
   os <- py_get profile_data "os" (VStr "") ;;
   disabled_addons_ids <- py_get profile_data "disabled_addons_ids" (VList []) ;;
   bookmark_count <- py_get profile_data "places_bookmarks_count" (VInt 0) ;;
   tab_open_count <-
     py_get profile_data "scalar_parent_browser_engagement_tab_open_event_count" (VInt 0) ;;
   total_uri <-
     py_get profile_data "scalar_parent_browser_engagement_total_uri_count" (VInt 0) ;;
   unique_tlds <-
     py_get profile_data "scalar_parent_browser_engagement_unique_domains_count" (VInt 0) ;;
   Ok (VDict
         [ ("client_id", VStr client_id);
           ("geo_city", geo_city);
           ("subsession_length", subsession_length);
           ("locale", locale);
           ("os", os);
           ("installed_addons", VList addon_ids);
           ("disabled_addons_ids", disabled_addons_ids);
           ("bookmark_count", bookmark_count);
           ("tab_open_count", tab_open_count);
           ("total_uri", total_uri);
           ("unique_tlds", unique_tlds) ]))%py.

(** Lines 151-163: the profile returned for a reserved test identifier. *)
Definition test_profile (client_id : string) : value :=
  VDict
    [ ("client_id", VStr client_id);
      ("geo_city", VStr "Toronto");
      ("subsession_length", VInt 42);
      ("locale", VStr "en-CA");
      ("os", VStr "Linux");
      ("installed_addons", VList []);
      ("disabled_addons_ids", VList []);
      ("bookmark_count", VInt 0);
      ("tab_open_count", VInt 0);
      ("total_uri", VInt 0);
      ("unique_tlds", VInt 0) ].

(** ** The imports of the module *)

(** What the module takes from outside the repository: the codec functions
    of [zlib], [json] and the string types, the configuration that
    [decouple.config] reads, and the two lists of reserved test identifiers
    of [taar.recommenders]. Decoding functions fail with the exception of
    their library; [json.dumps] may refuse a value. *)
Class Imports : Type := {
  zlib_compress : bytes -> bytes;
  zlib_decompress : bytes -> result bytes;
  str_encode : string -> bytes;
  bytes_decode : bytes -> result string;
  json_dumps : value -> result string;
  json_loads : string -> result value;
  BIGTABLE_PROJECT_ID : string;
  BIGTABLE_INSTANCE_ID : string;
  BIGTABLE_TABLE_ID : string;
  TEST_CLIENT_IDS : list string;
  EMPTY_TEST_CLIENT_IDS : list string
}.

(** [x in xs] on a list of strings. *)
Definition py_in (x : string) (xs : list string) : bool :=
  existsb (String.eqb x) xs.

(** [o.encode("utf8")]: a method of strings only. *)
Definition py_encode `{Imports} (o : value) : result bytes :=
  match o with
  | VStr s => Ok (str_encode s)
  | _ => Raise (AttributeError "encode")
  end.

(** ** The two stores and the effects of a call *)

#[global] Instance byte_eq_dec : EqDecision byte := Byte.byte_eq_dec.
#[global] Instance byte_countable : Countable byte :=
  inj_countable Byte.to_N Byte.of_N Byte.of_to_N.

(** A cell of the wide-column store: a payload and the timestamp of its
    write. *)
Record Cell : Type := { cell_value : bytes; cell_timestamp : Z }.

(** [PartialRowData.cells]: column family, then column qualifier, then the
    versions of the cell, most recent first. *)
Abbreviation RowCells := (gmap string (gmap bytes (list Cell))).

(** An attribute of a key-value item: [Binary] is the only one with a
    [.value]. *)
Inductive Attribute : Type :=
| Binary (payload : bytes)
| Plain (v : value).

(** What a call leaves behind outside its return value. *)
Inductive event : Type :=
| BigtableClientCreated (project_id : string) (admin : bool)
| ReadRow (table_id : string) (row_key : bytes)
| MutateRows (table_id : string) (row_key : bytes)
| GetItem (client_id : string)
| LogDebug (msg : string) (client_id : string) (error : option exn).

(** The world a call runs in: the rows of the BigTable table, the items of
    the DynamoDB table, the current time, what goes wrong when a service is
    reached ([None]: nothing), and the trace of the interactions so far.
    There is one table of each kind: the controllers of a world are taken
    to address the same project, instance and table, and their identifiers
    show in the events only; a property that relates two controllers says
    so where it needs them on the same table. *)
Record World : Type := {
  bigtable_rows : gmap bytes RowCells;
  bigtable_fault : option exn;
  bigtable_credentials : option exn;
  dynamo_items : gmap string (gmap string Attribute);
  dynamo_fault : option exn;
  utcnow : Z;
  trace : list event
}.

(** Computations over a state [S] that return or raise. *)
Definition M (S A : Type) : Type := S -> result A * S.

Definition ret {S A} (a : A) : M S A := fun s => (Ok a, s).
Definition raise {S A} (e : exn) : M S A := fun s => (Raise e, s).
Definition bind {S A B} (m : M S A) (k : A -> M S B) : M S B :=
  fun s =>
    match m s with
    | (Ok a, s') => k a s'
    | (Raise e, s') => (Raise e, s')
    end.
Definition lift_result {S A} (r : result A) : M S A := fun s => (r, s).

(** [try: body except ...: handler]; a handler that does not take the
    exception raises it again. *)
Definition try_except {S A} (body : M S A) (handler : exn -> M S A) : M S A :=
  fun s =>
    match body s with
    | (Ok a, s') => (Ok a, s')
    | (Raise e, s') => handler e s'
    end.

Declare Scope io_scope.
Delimit Scope io_scope with io.
Notation "x <- m ;; k" := (bind m (fun x => k))
  (at level 100, m at next level, right associativity) : io_scope.

Definition emit (ev : event) : M World unit :=
  fun w =>
    (Ok tt,
     {| bigtable_rows := bigtable_rows w;
        bigtable_fault := bigtable_fault w;
        bigtable_credentials := bigtable_credentials w;
        dynamo_items := dynamo_items w;
        dynamo_fault := dynamo_fault w;
        utcnow := utcnow w;
        trace := trace w ++ [ev] |}).

Definition set_bigtable_rows (rows : gmap bytes RowCells) : M World unit :=
  fun w =>
    (Ok tt,
     {| bigtable_rows := rows;
        bigtable_fault := bigtable_fault w;
        bigtable_credentials := bigtable_credentials w;
        dynamo_items := dynamo_items w;
        dynamo_fault := dynamo_fault w;
        utcnow := utcnow w;
        trace := trace w |}).

Definition ask {S A} (f : S -> A) : M S A := fun s => (Ok (f s), s).

Definition check_fault (fault : World -> option exn) : M World unit :=
  fun w =>
    match fault w with
    | Some e => (Raise e, w)
    | None => (Ok tt, w)
    end.

(** [logger.debug(msg, ...)]. *)
Definition logger_debug (msg client_id : string) (error : option exn) : M World unit :=
  emit (LogDebug msg client_id error).

(** The value of an option, or the exception of its absence. *)
Definition or_raise {S A} (o : option A) (e : exn) : M S A :=
  match o with
  | Some a => ret a
  | None => raise e
  end.

(** ** [class BigTableProfileController] *)

Module BigTableProfileController.
Section Controller.
Context `{Imports}.

Record t : Type := {
  _project_id : string;
  _instance_id : string;
  _table_id : string;
  _column_family_id : string;
  _column_name : bytes
}.

(** [__init__]: the garbage-collection rule it builds is used by
    [create_table] only; [bigtable.Client(project=project_id, admin=False)]
    is where missing credentials show. *)
Definition init (project_id instance_id table_id : string) : M World t :=
  (_ <- check_fault bigtable_credentials ;;
   _ <- emit (BigtableClientCreated project_id false) ;;
   ret {| _project_id := project_id;
          _instance_id := instance_id;
          _table_id := table_id;
          _column_family_id := "profile";
          _column_name := str_encode "payload" |})%io.

(** [row_filters.CellsColumnLimitFilter(n)]: the [n] most recent cells of
    every column. *)
Definition cells_column_limit (n : nat) (cells : RowCells) : RowCells :=
  (fun columns : gmap bytes (list Cell) => take n <$> columns) <$> cells.

(** [table.read_row(row_key, row_filter)]: the filtered row, or [None]
    when the table has no row under the key. *)
Definition read_row (self : t) (row_key : bytes) (limit : nat)
  : M World (option RowCells) :=
  (_ <- emit (ReadRow (_table_id self) row_key) ;;
   _ <- check_fault bigtable_fault ;;
   rows <- ask bigtable_rows ;;
   ret (cells_column_limit limit <$> rows !! row_key))%io.

(** A written cell takes its place among the versions of its column by
    timestamp, replacing the version with the same timestamp. *)
Fixpoint insert_cell (c : Cell) (versions : list Cell) : list Cell :=
  match versions with
  | [] => [c]
  | c' :: rest =>
      if Z.ltb (cell_timestamp c') (cell_timestamp c) then c :: versions
      else if Z.eqb (cell_timestamp c') (cell_timestamp c) then c :: rest
      else c' :: insert_cell c rest
  end.

Definition set_cell (family : string) (column : bytes) (c : Cell)
    (cells : RowCells) : RowCells :=
  let columns := default ∅ (cells !! family) in
  let versions := default [] (columns !! column) in
  <[family := <[column := insert_cell c versions]> columns]> cells.

(** [row = table.direct_row(row_key); row.set_cell(...);
    table.mutate_rows([row])]. *)
Definition mutate_row (self : t) (row_key : bytes) (family : string)
    (column : bytes) (c : Cell) : M World unit :=
  (_ <- emit (MutateRows (_table_id self) row_key) ;;
   _ <- check_fault bigtable_fault ;;
   rows <- ask bigtable_rows ;;
   set_bigtable_rows
     (<[row_key := set_cell family column c (default ∅ (rows !! row_key))]> rows))%io.

(** The payload written for a record (line 69) and its reading back
    (line 83). *)
Definition encode_payload (client_profile : value) : result bytes :=
  (text <- json_dumps client_profile ;;
   Ok (zlib_compress (str_encode text)))%py.

Definition decode_payload (payload : bytes) : result value :=
  (raw <- zlib_decompress payload ;;
   text <- bytes_decode raw ;;
   json_loads text)%py.

Definition set_client_profile (self : t) (client_profile : value) : M World unit :=
  (client_id <- lift_result (py_getitem client_profile "client_id") ;;
   row_key <- lift_result (py_encode client_id) ;;
   payload <- lift_result (encode_payload client_profile) ;;
   now <- ask utcnow ;;
   mutate_row self row_key (_column_family_id self) (_column_name self)
     {| cell_value := payload; cell_timestamp := now |})%io.

Definition get_client_profile (self : t) (client_id : string) : M World value :=
  (let row_key := str_encode client_id in
   row <- read_row self row_key 1 ;;
   cells <- or_raise row (AttributeError "cells") ;;
   columns <-
     or_raise (cells !! _column_family_id self) (KeyError (_column_family_id self)) ;;
   versions <- or_raise (columns !! _column_name self) (KeyError "payload") ;;
   cell <- or_raise (head versions) IndexError ;;
   lift_result (decode_payload (cell_value cell)))%io.
End Controller.
End BigTableProfileController.

(** ** [class ProfileController] *)

Module ProfileController.
Section Controller.
Context `{Imports}.

Record t : Type := { region_name : string; table_name : string }.

(** [self._table.get_item(Key={"client_id": client_id})]: the response
    carries the key ["Item"] only when the table has the item. *)
Definition get_item (self : t) (client_id : string)
  : M World (option (gmap string Attribute)) :=
  (_ <- emit (GetItem client_id) ;;
   _ <- check_fault dynamo_fault ;;
   items <- ask dynamo_items ;;
   ret (items !! client_id))%io.

(** [attribute.value]. *)
Definition binary_value (a : Attribute) : result bytes :=
  match a with
  | Binary payload => Ok payload
  | Plain _ => Raise (AttributeError "value")
  end.

(** The body of the [try] statement, lines 108-112. *)
Definition read_item (self : t) (client_id : string) : M World value :=
  (response <- get_item self client_id ;;
   item <- or_raise response (KeyError "Item") ;;
   attribute <- or_raise (item !! "json_payload") (KeyError "json_payload") ;;
   compressed_bytes <- lift_result (binary_value attribute) ;;
   json_byte_data <- lift_result (zlib_decompress compressed_bytes) ;;
   json_str_data <- lift_result (bytes_decode json_byte_data) ;;
   lift_result (json_loads json_str_data))%io.

Definition get_client_profile (self : t) (client_id : string) : M World value :=
  try_except
    (read_item self client_id)
    (fun e =>
       match e with
       | KeyError _ => ret VNone
       | _ =>
           (_ <- logger_debug "Error loading client data for {}.  Error: {}"
                  client_id (Some e) ;;
            ret VNone)%io
       end).
End Controller.
End ProfileController.

(** ** [class ProfileFetcher] *)

(** The objects [set_client] accepts: one of the two controllers, or any
    other object, given by what its [get_client_profile] does. *)
Inductive Backend : Type :=
| BigTable (controller : BigTableProfileController.t)
| DynamoDB (controller : ProfileController.t)
| Injected (get_client_profile : string -> M World value).

Module ProfileFetcher.
Section Fetcher.
Context `{Imports}.

(** The fetcher holds its client, [None] until the first use. *)
Record t : Type := { __client : option Backend }.

Record State : Type := { fetcher : t; world : World }.

Definition in_world {A} (m : M World A) : M State A :=
  fun s =>
    let '(r, w) := m (world s) in
    (r, {| fetcher := fetcher s; world := w |}).

Definition set_client (client : Backend) : M State unit :=
  fun s => (Ok tt, {| fetcher := {| __client := Some client |}; world := world s |}).

(** The property [_client]: the cached client, constructed on first use. *)
Definition _client : M State Backend :=
  (cached <- ask (fun s => __client (fetcher s)) ;;
   match cached with
   | Some client => ret client
   | None =>
       controller <-
         in_world
           (BigTableProfileController.init
              BIGTABLE_PROJECT_ID BIGTABLE_INSTANCE_ID BIGTABLE_TABLE_ID) ;;
       _ <- set_client (BigTable controller) ;;
       ret (BigTable controller)
   end)%io.

(** [client.get_client_profile(client_id)], by the class of the client. *)
Definition client_get_client_profile (client : Backend) (client_id : string)
  : M World value :=
  match client with
  | BigTable controller =>
      BigTableProfileController.get_client_profile controller client_id
  | DynamoDB controller =>
      ProfileController.get_client_profile controller client_id
  | Injected get_client_profile => get_client_profile client_id
  end.

(** Line 165: [self._client.get_client_profile(client_id)]. *)
Definition lookup (client_id : string) : M State value :=
  (client <- _client ;;
   in_world (client_get_client_profile client client_id))%io.

Definition is_test_client (client_id : string) : bool :=
  py_in client_id TEST_CLIENT_IDS || py_in client_id EMPTY_TEST_CLIENT_IDS.

Definition get (client_id : string) : M State value :=
  if is_test_client client_id then ret (test_profile client_id)
  else
    (profile_data <- lookup client_id ;;
     match profile_data with
     | VNone =>
         _ <- in_world (logger_debug "Client profile not found" client_id None) ;;
         ret VNone
     | _ => lift_result (normalize client_id profile_data)
     end)%io.
End Fetcher.
End ProfileFetcher.

(** ** A small instance of the imports *)

(** An executable stand-in for the libraries, on which the model runs on
    concrete inputs: UTF-8 for the code points below 256, the stored-block
    (level 0) form of a zlib stream with its Adler-32 trailer, and JSON
    text for the values without finite floats. What lies outside is
    refused with the exception of the library. *)
Module Sample.
Local Open Scope list_scope.

Definition byte_of (n : N) : byte := default x00 (Byte.of_N n).
Definition byte_val (b : byte) : Z := Z.of_N (Byte.to_N b).
Definition byte_of_Z (z : Z) : byte := byte_of (Z.to_N z).

(** *** UTF-8 *)

Definition encode_char (c : ascii) : bytes :=
  let n := N_of_ascii c in
  if (n <? 128)%N then [byte_of n]
  else [byte_of (192 + n / 64); byte_of (128 + n mod 64)].

Fixpoint utf8_encode (s : string) : bytes :=
  match s with
  | EmptyString => []
  | String c rest => encode_char c ++ utf8_encode rest
  end.

Fixpoint utf8_decode (b : bytes) : result string :=
  match b with
  | [] => Ok EmptyString
  | x :: rest =>
      let n := Byte.to_N x in
      if (n <? 128)%N then
        (s <- utf8_decode rest ;; Ok (String (ascii_of_N n) s))%py
      else if ((n =? 194) || (n =? 195))%N then
        match rest with
        | y :: rest' =>
            let m := Byte.to_N y in
            if ((128 <=? m) && (m <? 192))%N then
              (s <- utf8_decode rest' ;;
               Ok (String (ascii_of_N ((n - 192) * 64 + (m - 128))) s))%py
            else Raise UnicodeDecodeError
        | [] => Raise UnicodeDecodeError
        end
      else Raise UnicodeDecodeError
  end.

(** *** zlib, stored blocks *)

Definition adler32 (data : bytes) : Z :=
  let '(a, b) :=
    fold_left
      (fun '(a, b) x =>
         let a' := (a + byte_val x) mod 65521 in (a', (b + a') mod 65521))
      data (1, 0) in
  b * 65536 + a.

Definition be32 (z : Z) : bytes :=
  [ byte_of_Z (z / 16777216 mod 256); byte_of_Z (z / 65536 mod 256);
    byte_of_Z (z / 256 mod 256); byte_of_Z (z mod 256) ].

Definition le16 (z : Z) : bytes :=
  [ byte_of_Z (z mod 256); byte_of_Z (z / 256 mod 256) ].

Fixpoint stored_blocks (fuel : nat) (data : bytes) : bytes :=
  match fuel with
  | O => []
  | S fuel' =>
      let chunk := take (Z.to_nat 65535) data in
      let rest := drop (Z.to_nat 65535) data in
      let len := Z.of_nat (length chunk) in
      match rest with
      | [] => [x01] ++ le16 len ++ le16 (65535 - len) ++ chunk
      | _ :: _ =>
          [x00] ++ le16 len ++ le16 (65535 - len) ++ chunk ++ stored_blocks fuel' rest
      end
  end.

Definition compress (data : bytes) : bytes :=
  [x78; x01] ++ stored_blocks (S (length data)) data ++ be32 (adler32 data).

Fixpoint inflate_stored (fuel : nat) (stream acc : bytes) : option (bytes * bytes) :=
  match fuel with
  | O => None
  | S fuel' =>
      match stream with
      | hdr :: l0 :: l1 :: n0 :: n1 :: rest =>
          let kind := byte_val hdr mod 8 in
          let len := byte_val l0 + 256 * byte_val l1 in
          let nlen := byte_val n0 + 256 * byte_val n1 in
          if ((kind <? 2) && (len + nlen =? 65535)
              && (len <=? Z.of_nat (length rest)))%Z then
            let acc' := acc ++ take (Z.to_nat len) rest in
            if (kind =? 1)%Z then Some (acc', drop (Z.to_nat len) rest)
            else inflate_stored fuel' (drop (Z.to_nat len) rest) acc'
          else None
      | _ => None
      end
  end.

Definition decompress (stream : bytes) : result bytes :=
  match stream with
  | cmf :: flg :: body =>
      if ((byte_val cmf =? 120) && ((30720 + byte_val flg) mod 31 =? 0)
          && (byte_val flg / 32 mod 2 =? 0))%Z then
        match inflate_stored (length body) body [] with
        | Some (data, trailer) =>
            if bool_decide (trailer = be32 (adler32 data)) then Ok data
            else Raise ZlibError
        | None => Raise ZlibError
        end
      else Raise ZlibError
  | _ => Raise ZlibError
  end.

(** *** JSON *)

Definition dquote : ascii := ascii_of_N 34.
Definition backslash : ascii := ascii_of_N 92.

Definition hex_digit (n : N) : ascii :=
  if (n <? 10)%N then ascii_of_N (48 + n) else ascii_of_N (87 + n).

(** The escapes of [json.dumps] with [ensure_ascii]. *)
Definition escape_char (c : ascii) : string :=
  let n := N_of_ascii c in
  if (n =? 34)%N then String backslash (String dquote EmptyString)
  else if (n =? 92)%N then String backslash (String backslash EmptyString)
  else if (n =? 10)%N then String backslash "n"
  else if (n =? 13)%N then String backslash "r"
  else if (n =? 9)%N then String backslash "t"
  else if (n =? 8)%N then String backslash "b"
  else if (n =? 12)%N then String backslash "f"
  else if ((32 <=? n) && (n <? 127))%N then String c EmptyString
  else String backslash
         (String "u" (String "0" (String "0"
            (String (hex_digit (n / 16)) (String (hex_digit (n mod 16)) EmptyString))))).

Fixpoint escape (s : string) : string :=
  match s with
  | EmptyString => EmptyString
  | String c rest => String.append (escape_char c) (escape rest)
  end.

Definition quote (s : string) : string :=
  String dquote (String.append (escape s) (String dquote EmptyString)).

Definition dumps_float (f : float) : result string :=
  if PrimFloat.is_nan f then Ok "NaN"
  else if PrimFloat.eqb f PrimFloat.infinity then Ok "Infinity"
  else if PrimFloat.eqb f PrimFloat.neg_infinity then Ok "-Infinity"
  else Raise TypeError.

Fixpoint dumps (v : value) : result string :=
  match v with
  | VNone => Ok "null"
  | VBool true => Ok "true"
  | VBool false => Ok "false"
  | VInt z => Ok (pretty z)
  | VFloat f => dumps_float f
  | VStr s => Ok (quote s)
  | VList items =>
      let fix elements (l : list value) : result (list string) :=
        match l with
        | [] => Ok []
        | x :: rest =>
            (s <- dumps x ;; ss <- elements rest ;; Ok (s :: ss))%py
        end in
      (ss <- elements items ;;
       Ok (String.append "[" (String.append (String.concat ", " ss) "]")))%py
  | VDict items =>
      let fix members (l : list (string * value)) : result (list string) :=
        match l with
        | [] => Ok []
        | (k, x) :: rest =>
            (s <- dumps x ;; ss <- members rest ;;
             Ok (String.append (quote k) (String.append ": " s) :: ss))%py
        end in
      (ss <- members items ;;
       Ok (String.append "{" (String.append (String.concat ", " ss) "}")))%py
  end.

Fixpoint skip_ws (s : string) : string :=
  match s with
  | String c rest =>
      let n := N_of_ascii c in
      if ((n =? 32) || (n =? 9) || (n =? 10) || (n =? 13))%N then skip_ws rest else s
  | EmptyString => s
  end.

(** [expect word s]: [s] without its prefix [word]. *)
Fixpoint expect (word s : string) : option string :=
  match word, s with
  | EmptyString, _ => Some s
  | String a word', String b s' =>
      if Ascii.eqb a b then expect word' s' else None
  | String _ _, EmptyString => None
  end.

Definition hex_value (c : ascii) : option N :=
  let n := N_of_ascii c in
  if ((48 <=? n) && (n <? 58))%N then Some (n - 48)%N
  else if ((97 <=? n) && (n <? 103))%N then Some (n - 87)%N
  else if ((65 <=? n) && (n <? 71))%N then Some (n - 55)%N
  else None.

Definition simple_escape (c : ascii) : option ascii :=
  let n := N_of_ascii c in
  if (n =? 34)%N then Some dquote
  else if (n =? 92)%N then Some backslash
  else if (n =? 47)%N then Some (ascii_of_N 47)
  else if (n =? 98)%N then Some (ascii_of_N 8)
  else if (n =? 102)%N then Some (ascii_of_N 12)
  else if (n =? 110)%N then Some (ascii_of_N 10)
  else if (n =? 114)%N then Some (ascii_of_N 13)
  else if (n =? 116)%N then Some (ascii_of_N 9)
  else None.

(** The characters of a string literal after its opening quote, and the
    text after its closing quote. *)
Fixpoint parse_chars (s : string) : option (string * string) :=
  match s with
  | EmptyString => None
  | String c rest =>
      let n := N_of_ascii c in
      if (n =? 34)%N then Some (EmptyString, rest)
      else if (n =? 92)%N then
        match rest with
        | String e rest' =>
            if (N_of_ascii e =? 117)%N then
              match rest' with
              | String h1 (String h2 (String h3 (String h4 rest''))) =>
                  match hex_value h1, hex_value h2, hex_value h3, hex_value h4 with
                  | Some 0%N, Some 0%N, Some d3, Some d4 =>
                      match parse_chars rest'' with
                      | Some (t, r) => Some (String (ascii_of_N (d3 * 16 + d4)) t, r)
                      | None => None
                      end
                  | _, _, _, _ => None
                  end
              | _ => None
              end
            else
              match simple_escape e, parse_chars rest' with
              | Some ch, Some (t, r) => Some (String ch t, r)
              | _, _ => None
              end
        | EmptyString => None
        end
      else if (n <? 32)%N then None
      else
        match parse_chars rest with
        | Some (t, r) => Some (String c t, r)
        | None => None
        end
  end.

Fixpoint parse_digits (s : string) (acc : Z) : Z * string :=
  match s with
  | String c rest =>
      let n := N_of_ascii c in
      if ((48 <=? n) && (n <? 58))%N then parse_digits rest (10 * acc + Z.of_N (n - 48))%Z
      else (acc, s)
  | EmptyString => (acc, s)
  end.

(** An integer literal; a fraction or an exponent after it makes a float
    literal, which is refused. *)
Definition parse_int (s : string) : option (Z * string) :=
  match s with
  | String c rest =>
      let n := N_of_ascii c in
      let '(z, r) := if (n =? 48)%N then (0%Z, rest) else parse_digits s 0%Z in
      if ((48 <=? n) && (n <? 58))%N then
        match r with
        | String d _ =>
            let m := N_of_ascii d in
            if ((m =? 46) || (m =? 101) || (m =? 69))%N then None else Some (z, r)
        | EmptyString => Some (z, r)
        end
      else None
  | EmptyString => None
  end.

(** [dict.__setitem__] on the items: a key already there keeps its place. *)
Fixpoint dict_set (k : string) (v : value) (items : list (string * value))
  : list (string * value) :=
  match items with
  | [] => [(k, v)]
  | (k', v') :: rest =>
      if String.eqb k' k then (k', v) :: rest else (k', v') :: dict_set k v rest
  end.

Fixpoint parse_value (fuel : nat) (s : string) : option (value * string) :=
  match fuel with
  | O => None
  | S fuel' =>
      match s with
      | EmptyString => None
      | String c rest =>
          let n := N_of_ascii c in
          if (n =? 110)%N then r ← expect "ull" rest; Some (VNone, r)
          else if (n =? 116)%N then r ← expect "rue" rest; Some (VBool true, r)
          else if (n =? 102)%N then r ← expect "alse" rest; Some (VBool false, r)
          else if (n =? 78)%N then r ← expect "aN" rest; Some (VFloat PrimFloat.nan, r)
          else if (n =? 73)%N then
            r ← expect "nfinity" rest; Some (VFloat PrimFloat.infinity, r)
          else if (n =? 45)%N then
            match expect "Infinity" rest with
            | Some r => Some (VFloat PrimFloat.neg_infinity, r)
            | None => '(z, r) ← parse_int rest; Some (VInt (- z), r)
            end
          else if (n =? 34)%N then '(t, r) ← parse_chars rest; Some (VStr t, r)
          else if (n =? 91)%N then
            match skip_ws rest with
            | String "]" r => Some (VList [], r)
            | r => parse_elements fuel' r []
            end
          else if (n =? 123)%N then
            match skip_ws rest with
            | String "}" r => Some (VDict [], r)
            | r => parse_members fuel' r []
            end
          else '(z, r) ← parse_int s; Some (VInt z, r)
      end
  end
with parse_elements (fuel : nat) (s : string) (acc : list value)
  : option (value * string) :=
  match fuel with
  | O => None
  | S fuel' =>
      '(v, r) ← parse_value fuel' s;
      match skip_ws r with
      | String "," r' => parse_elements fuel' (skip_ws r') (acc ++ [v])
      | String "]" r' => Some (VList (acc ++ [v]), r')
      | _ => None
      end
  end
with parse_members (fuel : nat) (s : string) (acc : list (string * value))
  : option (value * string) :=
  match fuel with
  | O => None
  | S fuel' =>
      match s with
      | String q s' =>
          if (N_of_ascii q =? 34)%N then
            '(k, r) ← parse_chars s';
            match skip_ws r with
            | String ":" r' =>
                '(v, r'') ← parse_value fuel' (skip_ws r');
                match skip_ws r'' with
                | String "," r3 => parse_members fuel' (skip_ws r3) (dict_set k v acc)
                | String "}" r3 => Some (VDict (dict_set k v acc), r3)
                | _ => None
                end
            | _ => None
            end
          else None
      | EmptyString => None
      end
  end.

Definition loads (s : string) : result value :=
  match parse_value (S (String.length s)) (skip_ws s) with
  | Some (v, rest) =>
      match skip_ws rest with
      | EmptyString => Ok v
      | String _ _ => Raise JSONDecodeError
      end
  | None => Raise JSONDecodeError
  end.

(** The instance: the defaults of the configuration, two reserved
    identifiers of each kind. *)
#[export] Instance imports : Imports := {|
  zlib_compress := compress;
  zlib_decompress := decompress;
  str_encode := utf8_encode;
  bytes_decode := utf8_decode;
  json_dumps := dumps;
  json_loads := loads;
  BIGTABLE_PROJECT_ID := "cfr-personalization-experiment";
  BIGTABLE_INSTANCE_ID := "taar-profile";
  BIGTABLE_TABLE_ID := "test-table";
  TEST_CLIENT_IDS := ["test-client-1"; "test-client-2"];
  EMPTY_TEST_CLIENT_IDS := ["empty-client-1"; "empty-client-2"]
|}.
End Sample.

(** ** The vocabulary of the properties *)

(** An entry of [active_addons] that is a mapping with the key
    ["addon_id"]. *)
Definition carries_addon_id (addon : value) : bool :=
  match addon with
  | VDict items =>
      match dict_lookup "addon_id" items with
      | Some _ => true
      | None => false
      end
  | _ => false
  end.

(** A raw record whose [active_addons] is absent, or a list of mappings
    each with the key ["addon_id"]. *)
Definition addons_well_shaped (record : list (string * value)) : bool :=
  match dict_lookup "active_addons" record with
  | None => true
  | Some (VList entries) => forallb carries_addon_id entries
  | Some _ => false
  end.

(** The identifier an entry carries. *)
Definition addon_id_of (addon : value) : value :=
  match addon with
  | VDict items => default VNone (dict_lookup "addon_id" items)
  | _ => VNone
  end.

(** The [is_system] flag of an entry is absent or is [false]. *)
Definition flag_absent_or_false (addon : value) : bool :=
  match addon with
  | VDict items =>
      match dict_lookup "is_system" items with
      | None => true
      | Some (VBool false) => true
      | Some _ => false
      end
  | _ => false
  end.

(** The [is_system] flag of an entry is absent or has a false truth value:
    [false], [None], a zero, an empty string, list or mapping. *)
Definition flag_absent_or_falsy (addon : value) : bool :=
  match addon with
  | VDict items =>
      match dict_lookup "is_system" items with
      | None => true
      | Some flag => negb (py_truthy flag)
      end
  | _ => false
  end.

(** The fields of a normalized profile that are read from the raw record:
    source key, output key, default. *)
Definition field_defaults : list (string * string * value) :=
  [ ("city", "geo_city", VStr "");
    ("subsession_length", "subsession_length", VInt 0);
    ("locale", "locale", VStr "");
    ("os", "os", VStr "");
    ("disabled_addons_ids", "disabled_addons_ids", VList []);
    ("places_bookmarks_count", "bookmark_count", VInt 0);
    ("scalar_parent_browser_engagement_tab_open_event_count", "tab_open_count", VInt 0);
    ("scalar_parent_browser_engagement_total_uri_count", "total_uri", VInt 0);
    ("scalar_parent_browser_engagement_unique_domains_count", "unique_tlds", VInt 0) ].

(** The normalized profile of a record whose add-on identifiers are [ids]. *)
Definition profile_of (client_id : string) (record : list (string * value))
    (ids : list value) : value :=
  VDict
    [ ("client_id", VStr client_id);
      ("geo_city", default (VStr "") (dict_lookup "city" record));
      ("subsession_length", default (VInt 0) (dict_lookup "subsession_length" record));
      ("locale", default (VStr "") (dict_lookup "locale" record));
      ("os", default (VStr "") (dict_lookup "os" record));
      ("installed_addons", VList ids);
      ("disabled_addons_ids",
        default (VList []) (dict_lookup "disabled_addons_ids" record));
      ("bookmark_count", default (VInt 0) (dict_lookup "places_bookmarks_count" record));
      ("tab_open_count",
        default (VInt 0)
          (dict_lookup "scalar_parent_browser_engagement_tab_open_event_count" record));
      ("total_uri",
        default (VInt 0)
          (dict_lookup "scalar_parent_browser_engagement_total_uri_count" record));
      ("unique_tlds",
        default (VInt 0)
          (dict_lookup "scalar_parent_browser_engagement_unique_domains_count" record)) ].

(** The versions the table holds in the payload column of a row. *)
Definition stored_versions (self : BigTableProfileController.t)
    (row_key : bytes) (w : World) : list Cell :=
  default []
    (default ∅
       (default ∅ (bigtable_rows w !! row_key)
          !! BigTableProfileController._column_family_id self)
       !! BigTableProfileController._column_name self).

(** ** Scenarios *)

(** Concrete worlds and clients on which the properties are run. *)
Module Scenario.
(** Both stores empty and reachable. *)
Definition empty_world : World :=
  {| bigtable_rows := ∅;
     bigtable_fault := None;
     bigtable_credentials := None;
     dynamo_items := ∅;
     dynamo_fault := None;
     utcnow := 1572825600000000;
     trace := [] |}.

(** A client that fails the test that invokes it. *)
Definition failing_stub : Backend :=
  Injected (fun _ => raise AssertionError).

(** A client that returns a fixed record. *)
Definition fixed_stub (record : value) : Backend :=
  Injected (fun _ => ret record).

Definition bigtable_controller : BigTableProfileController.t :=
  {| BigTableProfileController._project_id := "cfr-personalization-experiment";
     BigTableProfileController._instance_id := "taar-profile";
     BigTableProfileController._table_id := "test-table";
     BigTableProfileController._column_family_id := "profile";
     BigTableProfileController._column_name := Sample.utf8_encode "payload" |}.

Definition dynamo_controller : ProfileController.t :=
  {| ProfileController.region_name := "us-west-2";
     ProfileController.table_name := "taar_addon_data_20180206" |}.

(** The key-value store holding one item whose payload is not a zlib
    stream. *)
Definition corrupt_world : World :=
  {| bigtable_rows := ∅;
     bigtable_fault := None;
     bigtable_credentials := None;
     dynamo_items := {[ "abc123" := {[ "json_payload" := Binary [x00; x01; x02] ]} ]};
     dynamo_fault := None;
     utcnow := 1572825600000000;
     trace := [] |}.

(** The record of the scenario of the spec, with a field outside the
    schema. *)
Definition paris_record : value :=
  VDict [ ("client_id", VStr "abc123");
          ("city", VStr "Paris");
          ("locale", VStr "fr");
          ("os", VStr "Darwin");
          ("places_bookmarks_count", VInt 5);
          ("active_addons", VList [VDict [("addon_id", VStr "ublock")]]);
          ("profile_age_in_days", VInt 321) ].

(** Its JSON text under the sample codec. *)
Definition paris_text : string :=
  match Sample.dumps paris_record with
  | Ok text => text
  | Raise _ => EmptyString
  end.

Definition fetcher_state (client : option Backend) (w : World)
  : ProfileFetcher.State :=
  {| ProfileFetcher.fetcher := {| ProfileFetcher.__client := client |};
     ProfileFetcher.world := w |}.
End Scenario.

(** ** Further vocabulary *)

Definition is_mapping (v : value) : bool :=
  match v with
  | VDict _ => true
  | _ => false
  end.

(** An entry the comprehension gets past: a mapping that is flagged as a
    system add-on or has the key ["addon_id"]. *)
Definition entry_acceptable (addon : value) : bool :=
  is_mapping addon && (negb (flag_absent_or_falsy addon) || carries_addon_id addon).

(** A raw record whose [active_addons] the comprehension gets through:
    absent, a list of acceptable entries, or an empty mapping or string. *)
Definition addons_acceptable (record : list (string * value)) : bool :=
  match dict_lookup "active_addons" record with
  | None => true
  | Some (VList entries) => forallb entry_acceptable entries
  | Some (VDict []) => true
  | Some (VStr EmptyString) => true
  | Some _ => false
  end.

(** The keys of a normalized profile, in the order of the literal. *)
Definition profile_keys : list string :=
  [ "client_id"; "geo_city"; "subsession_length"; "locale"; "os";
    "installed_addons"; "disabled_addons_ids"; "bookmark_count";
    "tab_open_count"; "total_uri"; "unique_tlds" ].



(** The world at another time. *)
Definition at_time (t : Z) (w : World) : World :=
  {| bigtable_rows := bigtable_rows w;
     bigtable_fault := bigtable_fault w;
     bigtable_credentials := bigtable_credentials w;
     dynamo_items := dynamo_items w;
     dynamo_fault := dynamo_fault w;
     utcnow := t;
     trace := trace w |}.

(** The world after one more event. *)
Definition logged (ev : event) (w : World) : World := snd (emit ev w).

(** A world in which the construction of a BigTable client fails. *)
Definition locked_out_world : World :=
  {| bigtable_rows := ∅;
     bigtable_fault := None;
     bigtable_credentials := Some (CredentialsError "no default credentials");
     dynamo_items := ∅;
     dynamo_fault := None;
     utcnow := 1572825600000000;
     trace := [] |}.

(** The payload of the most recent cell of a column of a row, with the
    exception that the expression [row.cells[family][column][0].value]
    raises when a step of it is missing. *)
Definition newest_payload (family : string) (column : bytes)
    (row : option RowCells) : result bytes :=
  match row with
  | None => Raise (AttributeError "cells")
  | Some cells =>
      match cells !! family with
      | None => Raise (KeyError family)
      | Some columns =>
          match columns !! column with
          | None => Raise (KeyError "payload")
          | Some versions =>
              match head versions with
              | None => Raise IndexError
              | Some c => Ok (cell_value c)
              end
          end
      end
  end.

(** Two worlds that differ in their trace at most. *)
Definition only_trace_differs (w w' : World) : Prop :=
  bigtable_rows w' = bigtable_rows w
  /\ bigtable_fault w' = bigtable_fault w
  /\ bigtable_credentials w' = bigtable_credentials w
  /\ dynamo_items w' = dynamo_items w
  /\ dynamo_fault w' = dynamo_fault w
  /\ utcnow w' = utcnow w.

(** Two versions of a payload, the newer one not a zlib stream, and a
    world whose table holds them for ["abc123"]. *)
Definition corrupt_versions : list Cell :=
  [ {| cell_value := [x00; x01; x02]; cell_timestamp := 20 |};
    {| cell_value := Sample.compress (Sample.utf8_encode "{}"); cell_timestamp := 10 |} ].

Definition corrupt_row_world : World :=
  {| bigtable_rows :=
       {[ Sample.utf8_encode "abc123" :=
            {[ "profile" := {[ Sample.utf8_encode "payload" := corrupt_versions ]} ]} ]};
     bigtable_fault := None;
     bigtable_credentials := None;
     dynamo_items := ∅;
     dynamo_fault := None;
     utcnow := 30;
     trace := [] |}.

(** The world after [mutate_rows] has written a payload under a row key at
    the time of the world. *)
Definition written (self : BigTableProfileController.t) (row_key payload : bytes)
    (w : World) : World :=
  {| bigtable_rows :=
       <[row_key :=
           BigTableProfileController.set_cell
             (BigTableProfileController._column_family_id self)
             (BigTableProfileController._column_name self)
             {| cell_value := payload; cell_timestamp := utcnow w |}
             (default ∅ (bigtable_rows w !! row_key))]> (bigtable_rows w);
     bigtable_fault := bigtable_fault w;
     bigtable_credentials := bigtable_credentials w;
     dynamo_items := dynamo_items w;
     dynamo_fault := dynamo_fault w;
     utcnow := utcnow w;
     trace := trace w ++ [MutateRows (BigTableProfileController._table_id self) row_key] |}.

(** A world whose BigTable service cannot be reached. *)
Definition unreachable_world : World :=
  {| bigtable_rows := ∅;
     bigtable_fault := Some (TransportError "deadline exceeded");
     bigtable_credentials := None;
     dynamo_items := ∅;
     dynamo_fault := None;
     utcnow := 1572825600000000;
     trace := [] |}.

(** An earlier record of the client of the scenario, and the table after
    it was written. *)
Definition lyon_record : value :=
  VDict [("client_id", VStr "abc123"); ("city", VStr "Lyon")].

Definition lyon_world : World :=
  snd (BigTableProfileController.set_client_profile (H := Sample.imports)
         Scenario.bigtable_controller lyon_record Scenario.empty_world).


(** The payload of the earlier record, and a key-value store that holds it
    for ["abc123"]. *)
Definition lyon_payload : bytes :=
  Sample.compress
    (Sample.utf8_encode
       (match Sample.dumps lyon_record with
        | Ok text => text
        | Raise _ => EmptyString
        end)).

Definition stored_item_world : World :=
  {| bigtable_rows := ∅;
     bigtable_fault := None;
     bigtable_credentials := None;
     dynamo_items := {[ "abc123" := {[ "json_payload" := Binary lyon_payload ]} ]};
     dynamo_fault := None;
     utcnow := 1572825600000000;
     trace := [] |}.

(** A key-value store whose item for ["abc123"] holds the JSON text of a
    list. *)
Definition list_item_world : World :=
  {| bigtable_rows := ∅;
     bigtable_fault := None;
     bigtable_credentials := None;
     dynamo_items :=
       {[ "abc123" :=
            {[ "json_payload" := Binary (Sample.compress (Sample.utf8_encode "[1]")) ]} ]};
     dynamo_fault := None;
     utcnow := 1572825600000000;
     trace := [] |}.


(** * Properties *)

(** ** Normalization *)

Example normalize_paris :
  normalize "abc123"
    (VDict [ ("city", VStr "Paris"); ("locale", VStr "fr"); ("os", VStr "Darwin");
             ("places_bookmarks_count", VInt 5);
             ("active_addons", VList [VDict [("addon_id", VStr "ublock")]]) ])
  = Ok (VDict
         [ ("client_id", VStr "abc123");
           ("geo_city", VStr "Paris");
           ("subsession_length", VInt 0);
           ("locale", VStr "fr");
           ("os", VStr "Darwin");
           ("installed_addons", VList [VStr "ublock"]);
           ("disabled_addons_ids", VList []);
           ("bookmark_count", VInt 5);
           ("tab_open_count", VInt 0);
           ("total_uri", VInt 0);
           ("unique_tlds", VInt 0) ]).
Proof. reflexivity. Qed.

Lemma py_get_dict (items : list (string * value)) (key : string) (dflt : value) :
  py_get (VDict items) key dflt = Ok (default dflt (dict_lookup key items)).
Proof. unfold py_get. now destruct (dict_lookup key items). Qed.

(** On a mapping, normalization stands or falls with the comprehension
    over [active_addons]. *)
Lemma normalize_dict (client_id : string) (record : list (string * value)) :
  normalize client_id (VDict record) =
  match addon_ids (VDict record) with
  | Ok ids => Ok (profile_of client_id record ids)
  | Raise e => Raise e
  end.
Proof.
  unfold normalize. destruct (addon_ids (VDict record)) as [ids|e]; [|reflexivity].
  cbn [rbind]. rewrite !py_get_dict. reflexivity.
Qed.

(** The comprehension on entries that all carry an identifier. *)
Lemma addon_ids_of_carrying (entries : list value) :
  forallb carries_addon_id entries = true ->
  addon_ids_of entries = Ok (map addon_id_of (List.filter flag_absent_or_falsy entries)).
Proof.
  induction entries as [|addon rest IH]; intros Hall; [reflexivity|].
  cbn [forallb] in Hall. apply andb_prop in Hall as [Hhead Hrest].
  specialize (IH Hrest).
  destruct addon as [| | | | | |items]; try discriminate Hhead.
  cbn [carries_addon_id] in Hhead.
  cbn [addon_ids_of py_get py_getitem List.filter flag_absent_or_falsy addon_id_of].
  destruct (dict_lookup "addon_id" items) as [id|] eqn:Hid; [|discriminate Hhead].
  destruct (dict_lookup "is_system" items) as [flag|]; cbn [rbind py_truthy negb].
  - destruct (py_truthy flag); cbn [negb rbind].
    + exact IH.
    + rewrite IH. cbn [rbind map addon_id_of]. rewrite Hid. reflexivity.
  - rewrite IH. cbn [rbind map addon_id_of]. rewrite Hid. reflexivity.
Qed.

Lemma addon_ids_well_shaped (record : list (string * value)) :
  addons_well_shaped record = true ->
  exists ids, addon_ids (VDict record) = Ok ids.
Proof.
  unfold addons_well_shaped, addon_ids. rewrite py_get_dict.
  destruct (dict_lookup "active_addons" record) as [active|];
    cbn [default from_option id rbind].
  - destruct active as [| | | | |entries|]; try discriminate.
    intros Hall. cbn [py_iter rbind]. rewrite (addon_ids_of_carrying _ Hall). eauto.
  - intros _. cbn. eauto.
Qed.

Lemma addon_ids_absent (record : list (string * value)) :
  dict_lookup "active_addons" record = None ->
  addon_ids (VDict record) = Ok [].
Proof. intros Habsent. unfold addon_ids. rewrite py_get_dict, Habsent. reflexivity. Qed.

(** C3, as stated, fails: an entry of [active_addons] without the key
    ["addon_id"] makes normalization raise [KeyError], so normalization is
    not total over every shape of the entries. *)
Lemma normalize_raises_on_entry_without_id :
  normalize "abc123"
    (VDict [("active_addons", VList [VDict [("name", VStr "uBlock")]])])
  = Raise (KeyError "addon_id")
  /\ ~ (exists profile,
         normalize "abc123"
           (VDict [("active_addons", VList [VDict [("name", VStr "uBlock")]])])
         = Ok profile).
Proof.
  split; [reflexivity|]. intros [profile Hok]. discriminate Hok.
Qed.

(** C3, amended: for every raw record whose [active_addons] is absent or a
    list of mappings each with the key ["addon_id"], normalization returns
    a profile; in it every field whose source key is absent from the record
    holds its default, and [installed_addons] is empty when [active_addons]
    is absent. *)
Theorem normalize_total_on_well_shaped
    (client_id : string) (record : list (string * value)) :
  addons_well_shaped record = true ->
  exists profile,
    normalize client_id (VDict record) = Ok (VDict profile)
    /\ Forall
         (fun '(source, field, dflt) =>
            dict_lookup source record = None ->
            dict_lookup field profile = Some dflt)
         field_defaults
    /\ (dict_lookup "active_addons" record = None ->
        dict_lookup "installed_addons" profile = Some (VList [])).
Proof.
  intros Hshape.
  destruct (addon_ids_well_shaped record Hshape) as [ids Hids].
  rewrite normalize_dict, Hids. unfold profile_of.
  eexists. split; [reflexivity|]. split.
  - unfold field_defaults.
    repeat (constructor; [intros Habsent; cbn; rewrite Habsent; reflexivity|]).
    constructor.
  - intros Habsent. rewrite (addon_ids_absent record Habsent) in Hids.
    injection Hids as <-. reflexivity.
Qed.

Lemma normalize_total_on_well_shaped_witness :
  exists profile,
    normalize "abc123"
      (VDict [ ("city", VStr "Paris");
               ("active_addons", VList [VDict [("addon_id", VStr "ublock")]]) ])
    = Ok (VDict profile)
    /\ dict_lookup "locale" profile = Some (VStr "")
    /\ dict_lookup "unique_tlds" profile = Some (VInt 0).
Proof.
  destruct
    (normalize_total_on_well_shaped "abc123"
       [ ("city", VStr "Paris");
         ("active_addons", VList [VDict [("addon_id", VStr "ublock")]]) ]
       eq_refl)
    as [profile [Hok [Hdefaults _]]].
  exists profile. split; [exact Hok|].
  rewrite List.Forall_forall in Hdefaults. split.
  - apply (Hdefaults ("locale", "locale", VStr "")); [cbn; tauto | reflexivity].
  - apply (Hdefaults
             ("scalar_parent_browser_engagement_unique_domains_count",
              "unique_tlds", VInt 0)); [cbn; tauto | reflexivity].
Defined.

(** C7, as stated, fails: an entry whose [is_system] flag is present and is
    not [false], but has a false truth value ([None], [0]), is kept among
    the installed add-ons, although the flag is neither absent nor false. *)
Lemma installed_addons_keeps_falsy_flags :
  forallb carries_addon_id
    [ VDict [("addon_id", VStr "a"); ("is_system", VNone)];
      VDict [("addon_id", VStr "b"); ("is_system", VInt 0)] ] = true
  /\ (exists profile,
        normalize "abc123"
          (VDict [("active_addons",
                   VList [ VDict [("addon_id", VStr "a"); ("is_system", VNone)];
                           VDict [("addon_id", VStr "b"); ("is_system", VInt 0)] ])])
        = Ok (VDict profile)
        /\ dict_lookup "installed_addons" profile = Some (VList [VStr "a"; VStr "b"]))
  /\ map addon_id_of
       (List.filter flag_absent_or_false
          [ VDict [("addon_id", VStr "a"); ("is_system", VNone)];
            VDict [("addon_id", VStr "b"); ("is_system", VInt 0)] ]) = [].
Proof.
  split; [reflexivity|]. split; [|reflexivity].
  eexists. split; reflexivity.
Qed.

(** C7, amended: for every raw record whose [active_addons] is a list of
    entries each carrying an [addon_id], the normalized [installed_addons]
    is the sequence of the [addon_id] values of exactly the entries whose
    [is_system] flag is absent or has a false truth value, in source
    order. *)
Theorem installed_addons_filter
    (client_id : string) (record : list (string * value)) (entries : list value) :
  dict_lookup "active_addons" record = Some (VList entries) ->
  forallb carries_addon_id entries = true ->
  exists profile,
    normalize client_id (VDict record) = Ok (VDict profile)
    /\ dict_lookup "installed_addons" profile
       = Some (VList (map addon_id_of (List.filter flag_absent_or_falsy entries))).
Proof.
  intros Hactive Hall. rewrite normalize_dict.
  unfold addon_ids. rewrite py_get_dict, Hactive.
  cbn [default from_option id rbind py_iter].
  rewrite (addon_ids_of_carrying entries Hall).
  eexists. split; reflexivity.
Qed.

(** The instance of the spec: [{addon_id: "a", is_system: true}] is left
    out, [{addon_id: "b"}] is kept. *)
Lemma installed_addons_filter_witness :
  exists profile,
    normalize "abc123"
      (VDict [("active_addons",
               VList [ VDict [("addon_id", VStr "a"); ("is_system", VBool true)];
                       VDict [("addon_id", VStr "b")] ])])
    = Ok (VDict profile)
    /\ dict_lookup "installed_addons" profile = Some (VList [VStr "b"]).
Proof.
  exact
    (installed_addons_filter "abc123"
       [("active_addons",
         VList [ VDict [("addon_id", VStr "a"); ("is_system", VBool true)];
                 VDict [("addon_id", VStr "b")] ])]
       [ VDict [("addon_id", VStr "a"); ("is_system", VBool true)];
         VDict [("addon_id", VStr "b")] ]
       eq_refl eq_refl).
Defined.

(** C8: for an empty raw record every normalized field holds its default:
    [geo_city], [locale] and [os] the empty string, the five counters 0,
    the two add-on lists empty. *)
Theorem normalize_empty_record (client_id : string) :
  normalize client_id (VDict [])
  = Ok (VDict
         [ ("client_id", VStr client_id);
           ("geo_city", VStr "");
           ("subsession_length", VInt 0);
           ("locale", VStr "");
           ("os", VStr "");
           ("installed_addons", VList []);
           ("disabled_addons_ids", VList []);
           ("bookmark_count", VInt 0);
           ("tab_open_count", VInt 0);
           ("total_uri", VInt 0);
           ("unique_tlds", VInt 0) ]).
Proof. reflexivity. Qed.

(** ** The fetcher *)

Lemma py_in_In (x : string) (xs : list string) : py_in x xs = true <-> In x xs.
Proof.
  unfold py_in. rewrite existsb_exists. split.
  - intros [y [Hin Heq]]. apply String.eqb_eq in Heq. now subst y.
  - intros Hin. exists x. split; [exact Hin | apply String.eqb_refl].
Qed.

Lemma is_test_client_In `{Imports} (client_id : string) :
  ProfileFetcher.is_test_client client_id = true
  <-> In client_id TEST_CLIENT_IDS \/ In client_id EMPTY_TEST_CLIENT_IDS.
Proof.
  unfold ProfileFetcher.is_test_client.
  rewrite orb_true_iff, !py_in_In. reflexivity.
Qed.

(** C4: for a client identifier of either reserved set, [get] returns the
    fixed synthetic profile, the same for both sets, and leaves the whole
    state as it was: the cached client is neither read nor constructed, and
    the trace gains no interaction with a store. This holds whatever client
    the fetcher has, one that fails when invoked included. *)
Theorem get_test_client `{Imports} (client_id : string) (s : ProfileFetcher.State) :
  In client_id TEST_CLIENT_IDS \/ In client_id EMPTY_TEST_CLIENT_IDS ->
  ProfileFetcher.get client_id s
  = (Ok (VDict
           [ ("client_id", VStr client_id);
             ("geo_city", VStr "Toronto");
             ("subsession_length", VInt 42);
             ("locale", VStr "en-CA");
             ("os", VStr "Linux");
             ("installed_addons", VList []);
             ("disabled_addons_ids", VList []);
             ("bookmark_count", VInt 0);
             ("tab_open_count", VInt 0);
             ("total_uri", VInt 0);
             ("unique_tlds", VInt 0) ]),
     s).
Proof.
  intros Hreserved. apply is_test_client_In in Hreserved.
  unfold ProfileFetcher.get. rewrite Hreserved. reflexivity.
Qed.

Lemma get_test_client_witness :
  ProfileFetcher.get (H := Sample.imports) "empty-client-2"
    (Scenario.fetcher_state (Some Scenario.failing_stub) Scenario.empty_world)
  = (Ok (VDict
           [ ("client_id", VStr "empty-client-2");
             ("geo_city", VStr "Toronto");
             ("subsession_length", VInt 42);
             ("locale", VStr "en-CA");
             ("os", VStr "Linux");
             ("installed_addons", VList []);
             ("disabled_addons_ids", VList []);
             ("bookmark_count", VInt 0);
             ("tab_open_count", VInt 0);
             ("total_uri", VInt 0);
             ("unique_tlds", VInt 0) ]),
     Scenario.fetcher_state (Some Scenario.failing_stub) Scenario.empty_world).
Proof.
  apply (get_test_client (H := Sample.imports)).
  right. cbn. tauto.
Defined.

(** Outside the reserved sets, [get] is the lookup followed by the log of
    an absence or by normalization. *)
Lemma get_unfold `{Imports} (client_id : string) (s : ProfileFetcher.State) :
  ~ (In client_id TEST_CLIENT_IDS \/ In client_id EMPTY_TEST_CLIENT_IDS) ->
  ProfileFetcher.get client_id s
  = match ProfileFetcher.lookup client_id s with
    | (Ok VNone, s') =>
        (Ok VNone,
         {| ProfileFetcher.fetcher := ProfileFetcher.fetcher s';
            ProfileFetcher.world :=
              snd (logger_debug "Client profile not found" client_id None
                     (ProfileFetcher.world s')) |})
    | (Ok profile_data, s') => (normalize client_id profile_data, s')
    | (Raise e, s') => (Raise e, s')
    end.
Proof.
  intros Hfree. unfold ProfileFetcher.get.
  destruct (ProfileFetcher.is_test_client client_id) eqn:Htest.
  - exfalso. apply Hfree. now apply is_test_client_In.
  - unfold bind.
    destruct (ProfileFetcher.lookup client_id s) as [[profile_data|e] s']; [|reflexivity].
    destruct profile_data; reflexivity.
Qed.

(** C9: for a client identifier outside the reserved sets for which the
    client returns a raw record, a profile returned by [get] has
    [client_id] equal to the requested identifier, whatever the raw record
    holds under ["client_id"]; and [get] does return a profile when the
    [active_addons] of the record are well shaped. *)
Theorem get_sets_client_id `{Imports}
    (client_id : string) (s s' : ProfileFetcher.State)
    (record : list (string * value)) :
  ~ (In client_id TEST_CLIENT_IDS \/ In client_id EMPTY_TEST_CLIENT_IDS) ->
  ProfileFetcher.lookup client_id s = (Ok (VDict record), s') ->
  (forall profile s'',
     ProfileFetcher.get client_id s = (Ok profile, s'') ->
     exists items,
       profile = VDict items /\ dict_lookup "client_id" items = Some (VStr client_id))
  /\ (addons_well_shaped record = true ->
      exists items,
        ProfileFetcher.get client_id s = (Ok (VDict items), s')
        /\ dict_lookup "client_id" items = Some (VStr client_id)).
Proof.
  intros Hfree Hlookup. rewrite (get_unfold client_id s Hfree), Hlookup.
  rewrite normalize_dict. split.
  - intros profile s''.
    destruct (addon_ids (VDict record)) as [ids|e]; [|discriminate].
    intros [= <- _]. eexists. split; reflexivity.
  - intros Hshape. destruct (addon_ids_well_shaped record Hshape) as [ids ->].
    eexists. split; reflexivity.
Qed.

Lemma get_sets_client_id_witness :
  exists items,
    ProfileFetcher.get (H := Sample.imports) "abc123"
      (Scenario.fetcher_state
         (Some (Scenario.fixed_stub
                  (VDict [("client_id", VStr "someone-else"); ("city", VStr "Paris")])))
         Scenario.empty_world)
    = (Ok (VDict items),
       Scenario.fetcher_state
         (Some (Scenario.fixed_stub
                  (VDict [("client_id", VStr "someone-else"); ("city", VStr "Paris")])))
         Scenario.empty_world)
    /\ dict_lookup "client_id" items = Some (VStr "abc123").
Proof.
  refine
    (proj2
       (get_sets_client_id (H := Sample.imports) "abc123"
          (Scenario.fetcher_state
             (Some (Scenario.fixed_stub
                      (VDict [("client_id", VStr "someone-else"); ("city", VStr "Paris")])))
             Scenario.empty_world)
          _
          [("client_id", VStr "someone-else"); ("city", VStr "Paris")]
          _ eq_refl)
       eq_refl).
  cbn. intros [Hin|Hin]; intuition discriminate.
Defined.

(** C1, on the code: [get] has no handler around the call of its client,
    so whatever the client raises leaves [get] as it is. With the client
    [get] constructs by default the claim fails: a missing row already
    makes [BigTableProfileController.get_client_profile] raise. *)
Theorem get_propagates_client_failure `{Imports}
    (client_id : string) (s s' : ProfileFetcher.State) (e : exn) :
  ~ (In client_id TEST_CLIENT_IDS \/ In client_id EMPTY_TEST_CLIENT_IDS) ->
  ProfileFetcher.lookup client_id s = (Raise e, s') ->
  ProfileFetcher.get client_id s = (Raise e, s').
Proof.
  intros Hfree Hlookup. now rewrite (get_unfold client_id s Hfree), Hlookup.
Qed.

Lemma get_propagates_client_failure_witness :
  fst (ProfileFetcher.get (H := Sample.imports) "abc123"
         (Scenario.fetcher_state None Scenario.empty_world))
  = Raise (AttributeError "cells").
Proof.
  rewrite
    (get_propagates_client_failure (H := Sample.imports) "abc123"
       (Scenario.fetcher_state None Scenario.empty_world)
       (snd (ProfileFetcher.lookup (H := Sample.imports) "abc123"
               (Scenario.fetcher_state None Scenario.empty_world)))
       (AttributeError "cells")).
  - reflexivity.
  - cbn. intros [Hin|Hin]; intuition discriminate.
  - vm_compute. reflexivity.
Defined.

(** ** The wide-column controller *)

(** C2, on the code: when the table has no row under the key of the client
    identifier, [BigTableProfileController.get_client_profile] raises and
    returns nothing; with the store reachable the exception is the
    [AttributeError] of [row.cells] on the [None] that [read_row]
    returned. *)
Theorem bigtable_get_missing_row_raises `{Imports}
    (self : BigTableProfileController.t) (client_id : string) (w : World) :
  bigtable_rows w !! str_encode client_id = None ->
  exists e w',
    BigTableProfileController.get_client_profile self client_id w = (Raise e, w')
    /\ (bigtable_fault w = None -> e = AttributeError "cells").
Proof.
  intros Hmissing.
  unfold BigTableProfileController.get_client_profile,
    BigTableProfileController.read_row, bind, emit, check_fault, ask, ret.
  cbn [bigtable_fault bigtable_rows].
  destruct (bigtable_fault w) as [fault|].
  - eexists _, _. split; [reflexivity|]. discriminate.
  - cbn [bigtable_rows]. rewrite Hmissing. cbn. eexists _, _. split; reflexivity.
Qed.

Lemma bigtable_get_missing_row_raises_witness :
  exists w',
    BigTableProfileController.get_client_profile (H := Sample.imports)
      Scenario.bigtable_controller "abc123" Scenario.empty_world
    = (Raise (AttributeError "cells"), w').
Proof.
  destruct
    (bigtable_get_missing_row_raises (H := Sample.imports)
       Scenario.bigtable_controller "abc123" Scenario.empty_world eq_refl)
    as [e [w' [Hraise Hkind]]].
  exists w'. rewrite Hraise, (Hkind eq_refl). reflexivity.
Defined.

(** ** The key-value controller *)

Lemma try_except_ok {S A} (body : M S A) (handler : exn -> M S A) (s s' : S) (a : A) :
  body s = (Ok a, s') -> try_except body handler s = (Ok a, s').
Proof. intros Hbody. unfold try_except. now rewrite Hbody. Qed.

Lemma try_except_raise {S A} (body : M S A) (handler : exn -> M S A) (s s' : S) (e : exn) :
  body s = (Raise e, s') -> try_except body handler s = handler e s'.
Proof. intros Hbody. unfold try_except. now rewrite Hbody. Qed.

(** Both handlers of [ProfileController.get_client_profile] return
    [None]. *)
Lemma key_value_handler_returns_none `{Imports}
    (self : ProfileController.t) (client_id : string) (w w' : World) (e : exn) :
  ProfileController.read_item self client_id w = (Raise e, w') ->
  fst (ProfileController.get_client_profile self client_id w) = Ok VNone.
Proof.
  intros Hbody. unfold ProfileController.get_client_profile.
  rewrite (try_except_raise _ _ _ _ _ Hbody). now destruct e.
Qed.

(** The body of the [try] on a reachable store. *)
Lemma read_item_reachable `{Imports}
    (self : ProfileController.t) (client_id : string) (w : World) :
  dynamo_fault w = None ->
  ProfileController.read_item self client_id w
  = (match dynamo_items w !! client_id with
     | None => Raise (KeyError "Item")
     | Some item =>
         match item !! "json_payload" with
         | None => Raise (KeyError "json_payload")
         | Some attribute =>
             (compressed_bytes <- ProfileController.binary_value attribute ;;
              raw <- zlib_decompress compressed_bytes ;;
              text <- bytes_decode raw ;;
              json_loads text)%py
         end
     end,
     snd (emit (GetItem client_id) w)).
Proof.
  destruct w as [rows bt_fault credentials items fault now events].
  cbn [dynamo_fault dynamo_items]. intros ->.
  unfold ProfileController.read_item, ProfileController.get_item,
    bind, emit, check_fault, ask, or_raise, lift_result, raise, ret.
  cbn [dynamo_fault dynamo_items snd].
  destruct (items !! client_id) as [item|]; [|reflexivity].
  destruct (item !! "json_payload") as [attribute|]; [|reflexivity].
  destruct (ProfileController.binary_value attribute) as [compressed|e]; [|reflexivity].
  cbn [rbind].
  destruct (zlib_decompress compressed) as [raw|e]; [|reflexivity].
  cbn [rbind].
  destruct (bytes_decode raw) as [text|e]; reflexivity.
Qed.

Lemma read_item_unreachable `{Imports}
    (self : ProfileController.t) (client_id : string) (w : World) (fault : exn) :
  dynamo_fault w = Some fault ->
  ProfileController.read_item self client_id w
  = (Raise fault, snd (emit (GetItem client_id) w)).
Proof.
  destruct w as [rows bt_fault credentials items ddb_fault now events].
  cbn [dynamo_fault]. intros ->. reflexivity.
Qed.

(** C6: [ProfileController.get_client_profile] never raises: it returns
    what the body of its [try] returns, and [None] whenever that body
    raises, be it for a missing key, a transport error or a payload that
    does not decode; a corrupt payload and a missing key give the caller
    the same [None]. *)
Theorem key_value_get_never_raises `{Imports}
    (self : ProfileController.t) (client_id : string) (w : World) :
  (exists v w', ProfileController.get_client_profile self client_id w = (Ok v, w'))
  /\ (dynamo_items w !! client_id = None ->
      fst (ProfileController.get_client_profile self client_id w) = Ok VNone)
  /\ (forall e w',
        ProfileController.read_item self client_id w = (Raise e, w') ->
        fst (ProfileController.get_client_profile self client_id w) = Ok VNone)
  /\ (forall item payload e,
        dynamo_items w !! client_id = Some item ->
        item !! "json_payload" = Some (Binary payload) ->
        (raw <- zlib_decompress payload ;; text <- bytes_decode raw ;; json_loads text)%py
        = Raise e ->
        fst (ProfileController.get_client_profile self client_id w) = Ok VNone).
Proof.
  assert (Hnone : forall e w',
             ProfileController.read_item self client_id w = (Raise e, w') ->
             fst (ProfileController.get_client_profile self client_id w) = Ok VNone)
    by (intros e w'; apply key_value_handler_returns_none).
  repeat split.
  - destruct (ProfileController.read_item self client_id w) as [[v|e] w'] eqn:Hbody.
    + exists v, w'. now apply try_except_ok.
    + unfold ProfileController.get_client_profile.
      rewrite (try_except_raise _ _ _ _ _ Hbody).
      destruct e; cbn; eauto.
  - intros Hmissing.
    destruct (dynamo_fault w) as [fault|] eqn:Hf.
    + exact (Hnone _ _ (read_item_unreachable self client_id w fault Hf)).
    + apply (Hnone (KeyError "Item") (snd (emit (GetItem client_id) w))).
      now rewrite (read_item_reachable self client_id w Hf), Hmissing.
  - exact Hnone.
  - intros item payload e Hitem Hattr Hdecode.
    destruct (dynamo_fault w) as [fault|] eqn:Hf.
    + exact (Hnone _ _ (read_item_unreachable self client_id w fault Hf)).
    + apply (Hnone e (snd (emit (GetItem client_id) w))).
      rewrite (read_item_reachable self client_id w Hf), Hitem, Hattr.
      cbn [ProfileController.binary_value rbind]. now rewrite Hdecode.
Qed.

Lemma key_value_get_never_raises_witness :
  fst (ProfileController.get_client_profile (H := Sample.imports)
         Scenario.dynamo_controller "abc123" Scenario.corrupt_world) = Ok VNone
  /\ fst (ProfileController.get_client_profile (H := Sample.imports)
            Scenario.dynamo_controller "abc123" Scenario.empty_world) = Ok VNone.
Proof.
  split.
  - apply
      (proj2 (proj2 (proj2
         (key_value_get_never_raises (H := Sample.imports)
            Scenario.dynamo_controller "abc123" Scenario.corrupt_world)))
         {[ "json_payload" := Binary [x00; x01; x02] ]} [x00; x01; x02] ZlibError);
      vm_compute; reflexivity.
  - apply
      (proj1 (proj2
         (key_value_get_never_raises (H := Sample.imports)
            Scenario.dynamo_controller "abc123" Scenario.empty_world))).
    vm_compute. reflexivity.
Defined.

(** With the key-value controller as its client, [get] turns a failure of
    the read into absence: the handlers the wide-column controller lacks
    are what keeps the failure from the caller. *)
Lemma get_key_value_absent `{Imports}
    (client_id : string) (s : ProfileFetcher.State)
    (controller : ProfileController.t) (e : exn) (w' : World) :
  ~ (In client_id TEST_CLIENT_IDS \/ In client_id EMPTY_TEST_CLIENT_IDS) ->
  ProfileFetcher.__client (ProfileFetcher.fetcher s) = Some (DynamoDB controller) ->
  ProfileController.read_item controller client_id (ProfileFetcher.world s)
  = (Raise e, w') ->
  fst (ProfileFetcher.get client_id s) = Ok VNone.
Proof.
  intros Hfree Hclient Hbody.
  pose proof (key_value_handler_returns_none controller client_id _ _ _ Hbody) as Hnone.
  rewrite (get_unfold client_id s Hfree).
  unfold ProfileFetcher.lookup, ProfileFetcher._client, ProfileFetcher.in_world,
    bind, ask, ret.
  rewrite Hclient. cbn [ProfileFetcher.client_get_client_profile].
  destruct (ProfileController.get_client_profile controller client_id
              (ProfileFetcher.world s)) as [r w''].
  cbn [fst] in Hnone. subst r. reflexivity.
Qed.

Example get_key_value_corrupt :
  fst (ProfileFetcher.get (H := Sample.imports) "abc123"
         (Scenario.fetcher_state (Some (DynamoDB Scenario.dynamo_controller))
            Scenario.corrupt_world))
  = Ok VNone.
Proof. vm_compute. reflexivity. Qed.

(** ** The versions of a cell *)

(** A cell written with a timestamp no older than the stored versions is
    the most recent version of its column. *)
Lemma head_insert_cell (c : Cell) (versions : list Cell) :
  Forall (fun c' => cell_timestamp c' <= cell_timestamp c) versions ->
  head (BigTableProfileController.insert_cell c versions) = Some c.
Proof.
  intros Hold. destruct versions as [|c' rest]; [reflexivity|].
  cbn [BigTableProfileController.insert_cell].
  apply Forall_inv in Hold.
  destruct (Z.ltb_spec (cell_timestamp c') (cell_timestamp c)); [reflexivity|].
  destruct (Z.eqb_spec (cell_timestamp c') (cell_timestamp c)); [reflexivity|].
  lia.
Qed.

(** The scenario of the spec: the record stored for ["abc123"] comes back
    from [get] normalized, without the field outside the schema. *)
Example get_paris :
  fst (ProfileFetcher.get (H := Sample.imports) "abc123"
         (Scenario.fetcher_state None
            (snd (BigTableProfileController.set_client_profile (H := Sample.imports)
                    Scenario.bigtable_controller Scenario.paris_record
                    Scenario.empty_world))))
  = Ok (VDict
         [ ("client_id", VStr "abc123");
           ("geo_city", VStr "Paris");
           ("subsession_length", VInt 0);
           ("locale", VStr "fr");
           ("os", VStr "Darwin");
           ("installed_addons", VList [VStr "ublock"]);
           ("disabled_addons_ids", VList []);
           ("bookmark_count", VInt 5);
           ("tab_open_count", VInt 0);
           ("total_uri", VInt 0);
           ("unique_tlds", VInt 0) ]).
Proof. vm_compute. reflexivity. Qed.

(** * Further properties *)

(** ** Normalization: the schema *)

(** X1: a profile that normalization returns has exactly the eleven keys of
    the schema, in the order of the literal, whatever keys the raw record
    has. *)
Theorem normalize_schema (client_id : string) (profile_data profile : value) :
  normalize client_id profile_data = Ok profile ->
  exists items, profile = VDict items /\ map fst items = profile_keys.
Proof.
  destruct profile_data as [| | | | | |record]; try discriminate.
  rewrite normalize_dict.
  destruct (addon_ids (VDict record)) as [ids|e]; [|discriminate].
  intros [= <-]. eexists. split; reflexivity.
Qed.

Lemma normalize_schema_witness :
  exists items,
    normalize "abc123"
      (VDict [("city", VStr "Paris"); ("profile_age_in_days", VInt 321)])
    = Ok (VDict items)
    /\ map fst items = profile_keys.
Proof.
  destruct
    (normalize_schema "abc123"
       (VDict [("city", VStr "Paris"); ("profile_age_in_days", VInt 321)])
       (profile_of "abc123"
          [("city", VStr "Paris"); ("profile_age_in_days", VInt 321)] [])
       eq_refl)
    as [items [Heq Hkeys]].
  exists items. split; [now rewrite <- Heq | exact Hkeys].
Defined.

(** X2: a field present in the raw record reaches the profile under its
    output name with the value it has, of whatever type: [city] as
    [geo_city], [places_bookmarks_count] as [bookmark_count], the three
    engagement scalars as [tab_open_count], [total_uri] and [unique_tlds],
    the others under their own name. *)
Theorem normalize_passes_fields_through
    (client_id : string) (record profile : list (string * value)) :
  normalize client_id (VDict record) = Ok (VDict profile) ->
  Forall
    (fun '(source, field, _) =>
       forall v, dict_lookup source record = Some v -> dict_lookup field profile = Some v)
    field_defaults.
Proof.
  rewrite normalize_dict.
  destruct (addon_ids (VDict record)) as [ids|e]; [|discriminate].
  unfold profile_of. intros [= <-]. unfold field_defaults.
  repeat (constructor; [intros v Hpresent; cbn; rewrite Hpresent; reflexivity|]).
  constructor.
Qed.

Lemma normalize_passes_fields_through_witness :
  dict_lookup "geo_city"
    [ ("client_id", VStr "abc123"); ("geo_city", VInt 7);
      ("subsession_length", VInt 0); ("locale", VStr ""); ("os", VStr "");
      ("installed_addons", VList []); ("disabled_addons_ids", VList []);
      ("bookmark_count", VInt 0); ("tab_open_count", VInt 0);
      ("total_uri", VInt 0); ("unique_tlds", VInt 0) ]
  = Some (VInt 7).
Proof.
  pose proof
    (normalize_passes_fields_through "abc123" [("city", VInt 7)]
       [ ("client_id", VStr "abc123"); ("geo_city", VInt 7);
         ("subsession_length", VInt 0); ("locale", VStr ""); ("os", VStr "");
         ("installed_addons", VList []); ("disabled_addons_ids", VList []);
         ("bookmark_count", VInt 0); ("tab_open_count", VInt 0);
         ("total_uri", VInt 0); ("unique_tlds", VInt 0) ]
       eq_refl) as Hfields.
  rewrite List.Forall_forall in Hfields.
  apply (Hfields ("city", "geo_city", VStr "")); [cbn; tauto | reflexivity].
Defined.

(** ** Normalization: the entries of [active_addons] *)

(** The comprehension gets past acceptable entries and goes on with the
    rest. *)
Lemma addon_ids_of_app (good rest : list value) :
  forallb entry_acceptable good = true ->
  addon_ids_of (good ++ rest)%list
  = (ids <- addon_ids_of rest ;;
     Ok (map addon_id_of (List.filter flag_absent_or_falsy good) ++ ids)%list)%py.
Proof.
  induction good as [|addon good IH]; intros Hall.
  - cbn. now destruct (addon_ids_of rest).
  - cbn [forallb] in Hall. apply andb_prop in Hall as [Hhead Hgood].
    specialize (IH Hgood).
    destruct addon as [| | | | | |items]; try discriminate Hhead.
    unfold entry_acceptable in Hhead.
    cbn [is_mapping andb flag_absent_or_falsy carries_addon_id] in Hhead.
    cbn [app addon_ids_of py_get py_getitem List.filter flag_absent_or_falsy].
    destruct (dict_lookup "is_system" items) as [flag|]; cbn [rbind].
    + destruct (py_truthy flag); cbn [negb orb] in Hhead |- *.
      * exact IH.
      * destruct (dict_lookup "addon_id" items) as [id|] eqn:Hid; [|discriminate Hhead].
        cbn [rbind]. rewrite IH.
        destruct (addon_ids_of rest); cbn [rbind map addon_id_of app];
          [rewrite Hid|]; reflexivity.
    + cbn [negb orb] in Hhead.
      destruct (dict_lookup "addon_id" items) as [id|] eqn:Hid; [|discriminate Hhead].
      cbn [rbind]. rewrite IH.
      destruct (addon_ids_of rest); cbn [rbind map addon_id_of app];
        [rewrite Hid|]; reflexivity.
Qed.

(** The comprehension stops at an entry that is not acceptable. *)
Lemma addon_ids_of_bad (bad : value) (rest : list value) :
  entry_acceptable bad = false ->
  addon_ids_of (bad :: rest)
  = Raise (if is_mapping bad then KeyError "addon_id" else AttributeError "get").
Proof.
  intros Hbad. destruct bad as [| | | | | |items]; try reflexivity.
  unfold entry_acceptable in Hbad.
  cbn [is_mapping andb flag_absent_or_falsy carries_addon_id] in Hbad.
  cbn [addon_ids_of py_get py_getitem is_mapping].
  destruct (dict_lookup "is_system" items) as [flag|]; cbn [rbind].
  - destruct (py_truthy flag); cbn [negb orb] in Hbad; [discriminate Hbad|].
    now destruct (dict_lookup "addon_id" items).
  - cbn [negb orb] in Hbad. now destruct (dict_lookup "addon_id" items).
Qed.

Lemma addon_ids_of_succeeds_iff (entries : list value) :
  (exists ids, addon_ids_of entries = Ok ids)
  <-> forallb entry_acceptable entries = true.
Proof.
  induction entries as [|addon rest IH]; [cbn; split; eauto|].
  cbn [forallb]. destruct (entry_acceptable addon) eqn:Hhead.
  - rewrite andb_true_l, <- IH.
    change (addon :: rest) with ([addon] ++ rest)%list.
    rewrite addon_ids_of_app by (cbn; now rewrite Hhead).
    destruct (addon_ids_of rest) as [ids|e]; cbn [rbind]; split; eauto.
  - rewrite (addon_ids_of_bad addon rest Hhead). cbn [andb].
    split; [intros [ids Hok]; discriminate Hok | discriminate].
Qed.

Lemma addon_ids_succeeds_iff (record : list (string * value)) :
  (exists ids, addon_ids (VDict record) = Ok ids)
  <-> addons_acceptable record = true.
Proof.
  unfold addon_ids, addons_acceptable. rewrite py_get_dict.
  destruct (dict_lookup "active_addons" record) as [active|];
    cbn [default from_option id rbind]; [|cbn; split; eauto].
  destruct active as [| | | |text|entries|items]; cbn [py_iter rbind];
    try (split; [intros [ids Hok]; discriminate Hok | discriminate]).
  - destruct text as [|c text]; cbn; [split; eauto|].
    split; [intros [ids Hok]; discriminate Hok | discriminate].
  - apply addon_ids_of_succeeds_iff.
  - destruct items as [|[k v] items]; cbn; [split; eauto|].
    split; [intros [ids Hok]; discriminate Hok | discriminate].
Qed.

(** X3: normalization of a raw record returns a profile exactly when its
    [active_addons] is absent, or is a list each entry of which is a mapping
    that is flagged as a system add-on or has the key ["addon_id"], or is an
    empty mapping or an empty string; an entry flagged as a system add-on
    needs no ["addon_id"]. *)
Theorem normalize_succeeds_iff (client_id : string) (record : list (string * value)) :
  (exists profile, normalize client_id (VDict record) = Ok profile)
  <-> addons_acceptable record = true.
Proof.
  rewrite <- addon_ids_succeeds_iff, normalize_dict.
  destruct (addon_ids (VDict record)) as [ids|e]; split; eauto;
    intros [x Hok]; discriminate Hok.
Qed.

(** C10, as stated, fails: the precondition is not what normalization
    requires. A record whose one entry of [active_addons] is flagged as a
    system add-on and has no ["addon_id"], and a record whose
    [active_addons] is the empty string, are outside the precondition, and
    normalization completes on both. *)
Lemma normalize_completes_outside_precondition :
  addons_well_shaped [("active_addons", VList [VDict [("is_system", VBool true)]])]
  = false
  /\ normalize "abc123"
       (VDict [("active_addons", VList [VDict [("is_system", VBool true)]])])
     = Ok (profile_of "abc123"
             [("active_addons", VList [VDict [("is_system", VBool true)]])] [])
  /\ addons_well_shaped [("active_addons", VStr "")] = false
  /\ normalize "abc123" (VDict [("active_addons", VStr "")])
     = Ok (profile_of "abc123" [("active_addons", VStr "")] []).
Proof. repeat split. Qed.

(** C10, amended: for every raw record whose [active_addons] is absent or a
    list of mappings each with the key ["addon_id"], normalization
    completes, whatever else the record holds; this precondition is
    sufficient, not required. What normalization requires of a raw record
    is that [active_addons] be absent, or a list each entry of which is a
    mapping that is flagged as a system add-on or has the key ["addon_id"],
    or an empty mapping or an empty string: it completes exactly then, and
    an exception it raises is the one the comprehension over
    [active_addons] raises. *)
Theorem normalize_requirement (client_id : string) (record : list (string * value)) :
  (addons_well_shaped record = true ->
   exists profile, normalize client_id (VDict record) = Ok profile)
  /\ ((exists profile, normalize client_id (VDict record) = Ok profile)
      <-> addons_acceptable record = true)
  /\ (forall e,
        normalize client_id (VDict record) = Raise e ->
        addon_ids (VDict record) = Raise e).
Proof.
  rewrite normalize_dict. repeat split.
  - intros Hshape. destruct (addon_ids_well_shaped record Hshape) as [ids ->]. eauto.
  - intros [profile Hok]. apply addon_ids_succeeds_iff.
    destruct (addon_ids (VDict record)) as [ids|e]; [eauto | discriminate Hok].
  - intros Hacceptable. apply addon_ids_succeeds_iff in Hacceptable as [ids ->]. eauto.
  - intros e. destruct (addon_ids (VDict record)) as [ids|e']; [discriminate|].
    now intros [= ->].
Qed.

Lemma normalize_requirement_witness :
  exists profile,
    normalize "abc123"
      (VDict [ ("city", VInt 7); ("os", VList [VNone]);
               ("active_addons",
                VList [VDict [("addon_id", VStr "ublock"); ("is_system", VStr "no")]]) ])
    = Ok profile.
Proof.
  exact
    (proj1
       (normalize_requirement "abc123"
          [ ("city", VInt 7); ("os", VList [VNone]);
            ("active_addons",
             VList [VDict [("addon_id", VStr "ublock"); ("is_system", VStr "no")]]) ])
       eq_refl).
Defined.

(** X4: normalization fails at the first entry of [active_addons] that is
    not acceptable, whatever follows it: with [AttributeError] when the
    entry is not a mapping, with [KeyError] when it is a mapping that is not
    flagged as a system add-on and has no ["addon_id"]. *)
Theorem normalize_first_bad_entry
    (client_id : string) (record : list (string * value))
    (good : list value) (bad : value) (rest : list value) :
  dict_lookup "active_addons" record = Some (VList (good ++ bad :: rest)%list) ->
  forallb entry_acceptable good = true ->
  entry_acceptable bad = false ->
  normalize client_id (VDict record)
  = Raise (if is_mapping bad then KeyError "addon_id" else AttributeError "get").
Proof.
  intros Hactive Hgood Hbad. rewrite normalize_dict.
  unfold addon_ids. rewrite py_get_dict, Hactive.
  cbn [default from_option id rbind py_iter].
  rewrite (addon_ids_of_app good (bad :: rest) Hgood),
    (addon_ids_of_bad bad rest Hbad).
  reflexivity.
Qed.

Lemma normalize_first_bad_entry_witness :
  normalize "abc123"
    (VDict [("active_addons",
             VList [ VDict [("is_system", VBool true)];
                     VStr "ublock";
                     VDict [("name", VStr "no id")] ])])
  = Raise (AttributeError "get").
Proof.
  exact
    (normalize_first_bad_entry "abc123"
       [("active_addons",
         VList [ VDict [("is_system", VBool true)];
                 VStr "ublock";
                 VDict [("name", VStr "no id")] ])]
       [VDict [("is_system", VBool true)]]
       (VStr "ublock")
       [VDict [("name", VStr "no id")]]
       eq_refl eq_refl eq_refl).
Defined.

(** X5: an [active_addons] that is present but is [None], a boolean or a
    number makes normalization raise [TypeError]: the default of [.get]
    stands in for an absent key only, and these values are not iterable. *)
Theorem normalize_addons_not_iterable
    (client_id : string) (record : list (string * value)) (active : value) :
  dict_lookup "active_addons" record = Some active ->
  match active with
  | VNone | VBool _ | VInt _ | VFloat _ => True
  | _ => False
  end ->
  normalize client_id (VDict record) = Raise TypeError.
Proof.
  intros Hactive Hkind. rewrite normalize_dict.
  unfold addon_ids. rewrite py_get_dict, Hactive.
  now destruct active.
Qed.

Lemma normalize_addons_not_iterable_witness :
  normalize "abc123" (VDict [("city", VStr "Paris"); ("active_addons", VNone)])
  = Raise TypeError.
Proof.
  exact
    (normalize_addons_not_iterable "abc123"
       [("city", VStr "Paris"); ("active_addons", VNone)] VNone eq_refl I).
Defined.

(** ** The fetcher: what the client returns *)

(** X6: when the client returns a value that is neither [None] nor a
    mapping (a list, a string, a number read from the payload), [get]
    raises [AttributeError] and logs nothing: only [None] is taken for an
    absent profile. *)
Theorem get_rejects_non_mapping `{Imports}
    (client_id : string) (s s' : ProfileFetcher.State) (profile_data : value) :
  ~ (In client_id TEST_CLIENT_IDS \/ In client_id EMPTY_TEST_CLIENT_IDS) ->
  ProfileFetcher.lookup client_id s = (Ok profile_data, s') ->
  profile_data <> VNone ->
  is_mapping profile_data = false ->
  ProfileFetcher.get client_id s = (Raise (AttributeError "get"), s').
Proof.
  intros Hfree Hlookup Hsome Hkind.
  rewrite (get_unfold client_id s Hfree), Hlookup.
  destruct profile_data; try reflexivity; [congruence | discriminate Hkind].
Qed.

Lemma get_rejects_non_mapping_witness :
  ProfileFetcher.get (H := Sample.imports) "abc123"
    (Scenario.fetcher_state
       (Some (Scenario.fixed_stub (VList [VStr "Paris"]))) Scenario.empty_world)
  = (Raise (AttributeError "get"),
     Scenario.fetcher_state
       (Some (Scenario.fixed_stub (VList [VStr "Paris"]))) Scenario.empty_world).
Proof.
  apply (get_rejects_non_mapping (H := Sample.imports) "abc123" _ _
           (VList [VStr "Paris"])).
  - cbn. intros [Hin|Hin]; intuition discriminate.
  - reflexivity.
  - discriminate.
  - reflexivity.
Defined.

(** X7: when the client returns [None], [get] returns [None], makes up no
    profile, and the one thing it adds to what the lookup left is a debug
    record ["Client profile not found"] with the client identifier. *)
Theorem get_absent_logs `{Imports}
    (client_id : string) (s s' : ProfileFetcher.State) :
  ~ (In client_id TEST_CLIENT_IDS \/ In client_id EMPTY_TEST_CLIENT_IDS) ->
  ProfileFetcher.lookup client_id s = (Ok VNone, s') ->
  ProfileFetcher.get client_id s
  = (Ok VNone,
     {| ProfileFetcher.fetcher := ProfileFetcher.fetcher s';
        ProfileFetcher.world :=
          logged (LogDebug "Client profile not found" client_id None)
            (ProfileFetcher.world s') |}).
Proof.
  intros Hfree Hlookup. now rewrite (get_unfold client_id s Hfree), Hlookup.
Qed.

Lemma get_absent_logs_witness :
  ProfileFetcher.get (H := Sample.imports) "abc123"
    (Scenario.fetcher_state
       (Some (DynamoDB Scenario.dynamo_controller)) Scenario.empty_world)
  = (Ok VNone,
     Scenario.fetcher_state
       (Some (DynamoDB Scenario.dynamo_controller))
       (logged (LogDebug "Client profile not found" "abc123" None)
          (logged (GetItem "abc123") Scenario.empty_world))).
Proof.
  refine
    (get_absent_logs (H := Sample.imports) "abc123"
       (Scenario.fetcher_state
          (Some (DynamoDB Scenario.dynamo_controller)) Scenario.empty_world)
       (Scenario.fetcher_state
          (Some (DynamoDB Scenario.dynamo_controller))
          (logged (GetItem "abc123") Scenario.empty_world))
       _ eq_refl).
  cbn. intros [Hin|Hin]; intuition discriminate.
Defined.

(** ** The fetcher: its client *)

(** X8: once the property [_client] has given a client, that client is the
    cached one, and reading the property again gives the same client and
    changes nothing: the default controller is constructed at most once. *)
Theorem client_cached `{Imports}
    (s s' : ProfileFetcher.State) (client : Backend) :
  ProfileFetcher._client s = (Ok client, s') ->
  ProfileFetcher.__client (ProfileFetcher.fetcher s') = Some client
  /\ ProfileFetcher._client s' = (Ok client, s').
Proof.
  unfold ProfileFetcher._client, bind, ask, ret.
  destruct (ProfileFetcher.__client (ProfileFetcher.fetcher s)) as [cached|] eqn:Hcached.
  - intros [= <- <-]. now rewrite Hcached.
  - unfold ProfileFetcher.in_world, ProfileFetcher.set_client.
    destruct (BigTableProfileController.init _ _ _ (ProfileFetcher.world s))
      as [[controller|e] w]; [|discriminate].
    intros [= <- <-]. cbn. split; reflexivity.
Qed.

Lemma client_cached_witness :
  ProfileFetcher.__client
    (ProfileFetcher.fetcher
       (snd (ProfileFetcher._client (H := Sample.imports)
               (Scenario.fetcher_state None Scenario.empty_world))))
  = Some (BigTable Scenario.bigtable_controller)
  /\ ProfileFetcher._client (H := Sample.imports)
       (snd (ProfileFetcher._client (H := Sample.imports)
               (Scenario.fetcher_state None Scenario.empty_world)))
     = (Ok (BigTable Scenario.bigtable_controller),
        snd (ProfileFetcher._client (H := Sample.imports)
               (Scenario.fetcher_state None Scenario.empty_world))).
Proof.
  exact
    (client_cached (H := Sample.imports)
       (Scenario.fetcher_state None Scenario.empty_world)
       (snd (ProfileFetcher._client (H := Sample.imports)
               (Scenario.fetcher_state None Scenario.empty_world)))
       (BigTable Scenario.bigtable_controller)
       eq_refl).
Defined.

(** X9: when the construction of the default controller fails, [_client]
    raises the failure and caches nothing, and [get] on an identifier
    outside the reserved sets raises it too and leaves the state as it was,
    so the next call tries the construction again. *)
Theorem client_construction_failure `{Imports}
    (client_id : string) (s : ProfileFetcher.State) (e : exn) :
  ProfileFetcher.__client (ProfileFetcher.fetcher s) = None ->
  bigtable_credentials (ProfileFetcher.world s) = Some e ->
  ProfileFetcher._client s = (Raise e, s)
  /\ (~ (In client_id TEST_CLIENT_IDS \/ In client_id EMPTY_TEST_CLIENT_IDS) ->
      ProfileFetcher.get client_id s = (Raise e, s)).
Proof.
  intros Hnone Hcredentials.
  assert (Hclient : ProfileFetcher._client s = (Raise e, s)).
  { destruct s as [[cached] w]. cbn in Hnone, Hcredentials. subst cached.
    unfold ProfileFetcher._client, ProfileFetcher.in_world,
      BigTableProfileController.init, bind, ask, check_fault.
    cbn. now rewrite Hcredentials. }
  split; [exact Hclient|].
  intros Hfree. rewrite (get_unfold client_id s Hfree).
  unfold ProfileFetcher.lookup, bind. now rewrite Hclient.
Qed.

Lemma client_construction_failure_witness :
  ProfileFetcher.get (H := Sample.imports) "abc123"
    (Scenario.fetcher_state None locked_out_world)
  = (Raise (CredentialsError "no default credentials"),
     Scenario.fetcher_state None locked_out_world).
Proof.
  apply
    (client_construction_failure (H := Sample.imports) "abc123"
       (Scenario.fetcher_state None locked_out_world)
       (CredentialsError "no default credentials") eq_refl eq_refl).
  cbn. intros [Hin|Hin]; intuition discriminate.
Defined.

(** X10: after [set_client], the property [_client] gives the injected
    client, whatever was cached before, without constructing a controller
    and without touching the world; and [get] leaves the client of a
    fetcher that has one in place. *)
Theorem set_client_overrides `{Imports}
    (client : Backend) (client_id : string) (s : ProfileFetcher.State) :
  ProfileFetcher._client (snd (ProfileFetcher.set_client client s))
  = (Ok client, snd (ProfileFetcher.set_client client s))
  /\ ProfileFetcher.world (snd (ProfileFetcher.set_client client s))
     = ProfileFetcher.world s
  /\ ProfileFetcher.fetcher
       (snd (ProfileFetcher.get client_id (snd (ProfileFetcher.set_client client s))))
     = {| ProfileFetcher.__client := Some client |}.
Proof.
  split; [reflexivity|]. split; [reflexivity|].
  unfold ProfileFetcher.get.
  destruct (ProfileFetcher.is_test_client client_id); [reflexivity|].
  unfold ProfileFetcher.lookup, ProfileFetcher._client, ProfileFetcher.set_client,
    ProfileFetcher.in_world, bind, ask, ret, lift_result.
  cbn [snd ProfileFetcher.fetcher ProfileFetcher.world ProfileFetcher.__client].
  destruct (ProfileFetcher.client_get_client_profile client client_id
              (ProfileFetcher.world s)) as [[profile_data|e] w]; [|reflexivity].
  cbn [ProfileFetcher.fetcher].
  destruct profile_data; reflexivity.
Qed.

(** ** The wide-column controller: reading *)

Lemma head_take_1 {A} (l : list A) : head (take 1 l) = head l.
Proof. now destruct l. Qed.

(** [BigTableProfileController.get_client_profile] as one equation: the
    transport error of an unreachable store, otherwise the decoding of
    [newest_payload]; the world gains the event of the read. *)
Lemma bigtable_get_eq `{Imports}
    (self : BigTableProfileController.t) (client_id : string) (w : World) :
  BigTableProfileController.get_client_profile self client_id w
  = (match bigtable_fault w with
     | Some e => Raise e
     | None =>
         (payload <-
            newest_payload
              (BigTableProfileController._column_family_id self)
              (BigTableProfileController._column_name self)
              (bigtable_rows w !! str_encode client_id) ;;
          BigTableProfileController.decode_payload payload)%py
     end,
     logged
       (ReadRow (BigTableProfileController._table_id self) (str_encode client_id)) w).
Proof.
  destruct w as [rows fault credentials items ddb_fault now events].
  unfold BigTableProfileController.get_client_profile,
    BigTableProfileController.read_row,
    bind, emit, check_fault, ask, or_raise, lift_result, raise, ret, logged.
  cbn [bigtable_fault bigtable_rows bigtable_credentials dynamo_items
       dynamo_fault utcnow trace snd].
  destruct fault as [e|]; [reflexivity|].
  unfold newest_payload, BigTableProfileController.cells_column_limit.
  cbn [bigtable_fault bigtable_rows bigtable_credentials dynamo_items
       dynamo_fault utcnow trace snd].
  destruct (rows !! str_encode client_id) as [cells|];
    cbn [fmap option_fmap option_map rbind]; [|reflexivity].
  rewrite lookup_fmap.
  destruct (cells !! BigTableProfileController._column_family_id self) as [columns|];
    cbn [fmap option_fmap option_map rbind]; [|reflexivity].
  rewrite lookup_fmap.
  destruct (columns !! BigTableProfileController._column_name self) as [versions|];
    cbn [fmap option_fmap option_map rbind]; [|reflexivity].
  rewrite head_take_1.
  destruct (head versions) as [c|]; reflexivity.
Qed.

(** X11: on a reachable store, [BigTableProfileController.get_client_profile]
    returns the decoding of the most recent cell of the payload column of
    the row, and of that cell only: when its payload does not decode the
    exception is raised to the caller, and the older versions are not looked
    at. The call issues one read and changes nothing else in the world. *)
Theorem bigtable_get_reads_newest `{Imports}
    (self : BigTableProfileController.t) (client_id : string) (w : World)
    (cells : RowCells) (columns : gmap bytes (list Cell))
    (newest : Cell) (older : list Cell) :
  bigtable_fault w = None ->
  bigtable_rows w !! str_encode client_id = Some cells ->
  cells !! BigTableProfileController._column_family_id self = Some columns ->
  columns !! BigTableProfileController._column_name self = Some (newest :: older) ->
  BigTableProfileController.get_client_profile self client_id w
  = (BigTableProfileController.decode_payload (cell_value newest),
     logged
       (ReadRow (BigTableProfileController._table_id self) (str_encode client_id)) w).
Proof.
  intros Hreachable Hrow Hfamily Hcolumn.
  rewrite bigtable_get_eq, Hreachable, Hrow.
  unfold newest_payload. now rewrite Hfamily, Hcolumn.
Qed.

(** A row whose newest payload is not a zlib stream, over an older
    version. *)
Lemma bigtable_get_reads_newest_witness :
  fst (BigTableProfileController.get_client_profile (H := Sample.imports)
         Scenario.bigtable_controller "abc123" corrupt_row_world)
  = Raise ZlibError.
Proof.
  rewrite
    (bigtable_get_reads_newest (H := Sample.imports)
       Scenario.bigtable_controller "abc123" corrupt_row_world
       {[ "profile" := {[ Sample.utf8_encode "payload" := corrupt_versions ]} ]}
       {[ Sample.utf8_encode "payload" := corrupt_versions ]}
       {| cell_value := [x00; x01; x02]; cell_timestamp := 20 |}
       [ {| cell_value := Sample.compress (Sample.utf8_encode "{}");
            cell_timestamp := 10 |} ]
       eq_refl
       (lookup_singleton_eq (M := gmap bytes) _ _)
       (lookup_singleton_eq (M := gmap string) _ _)
       (lookup_singleton_eq (M := gmap bytes) _ _)).
  cbn [fst cell_value]. vm_compute. reflexivity.
Defined.

(** ** Reading changes no store *)

Lemma only_trace_differs_refl (w : World) : only_trace_differs w w.
Proof. repeat split. Qed.

Lemma only_trace_differs_trans (w1 w2 w3 : World) :
  only_trace_differs w1 w2 -> only_trace_differs w2 w3 -> only_trace_differs w1 w3.
Proof.
  unfold only_trace_differs.
  intros (-> & -> & -> & -> & -> & ->) (-> & -> & -> & -> & -> & ->).
  repeat split.
Qed.

Lemma only_trace_differs_logged (ev : event) (w : World) :
  only_trace_differs w (logged ev w).
Proof. repeat split. Qed.

Lemma bigtable_get_read_only `{Imports}
    (self : BigTableProfileController.t) (client_id : string) (w : World) :
  only_trace_differs w
    (snd (BigTableProfileController.get_client_profile self client_id w)).
Proof. rewrite bigtable_get_eq. apply only_trace_differs_logged. Qed.

Lemma key_value_get_read_only `{Imports}
    (self : ProfileController.t) (client_id : string) (w : World) :
  only_trace_differs w
    (snd (ProfileController.get_client_profile self client_id w)).
Proof.
  unfold ProfileController.get_client_profile, try_except.
  destruct (dynamo_fault w) as [fault|] eqn:Hfault.
  - rewrite (read_item_unreachable self client_id w fault Hfault).
    destruct fault; apply only_trace_differs_logged
      || (eapply only_trace_differs_trans;
          [apply (only_trace_differs_logged (GetItem client_id))
          |apply only_trace_differs_logged]).
  - rewrite (read_item_reachable self client_id w Hfault).
    match goal with
    | |- context [match ?r with Ok _ => _ | Raise _ => _ end] => destruct r as [v|e]
    end.
    + apply only_trace_differs_logged.
    + destruct e; apply only_trace_differs_logged
        || (eapply only_trace_differs_trans;
            [apply (only_trace_differs_logged (GetItem client_id))
            |apply only_trace_differs_logged]).
Qed.

(** X12: [get], with no client yet or with one of the two controllers as
    its client, changes nothing in the world beside the trace: no row, no
    item, whatever the identifier and whatever the outcome. *)
Theorem get_read_only `{Imports} (client_id : string) (s : ProfileFetcher.State) :
  match ProfileFetcher.__client (ProfileFetcher.fetcher s) with
  | Some (Injected _) => False
  | _ => True
  end ->
  only_trace_differs (ProfileFetcher.world s)
    (ProfileFetcher.world (snd (ProfileFetcher.get client_id s))).
Proof.
  intros Hclient. unfold ProfileFetcher.get.
  destruct (ProfileFetcher.is_test_client client_id);
    [apply only_trace_differs_refl|].
  destruct s as [[cached] w].
  cbn [ProfileFetcher.fetcher ProfileFetcher.__client ProfileFetcher.world] in *.
  assert (Hlookup :
            only_trace_differs w
              (ProfileFetcher.world
                 (snd (ProfileFetcher.lookup client_id
                         {| ProfileFetcher.fetcher := {| ProfileFetcher.__client := cached |};
                            ProfileFetcher.world := w |})))).
  { unfold ProfileFetcher.lookup, ProfileFetcher._client, ProfileFetcher.in_world,
      ProfileFetcher.set_client, bind, ask, ret.
    cbn [ProfileFetcher.fetcher ProfileFetcher.__client ProfileFetcher.world].
    destruct cached as [[controller|controller|stub]|]; [| |contradiction|].
    - cbn [ProfileFetcher.client_get_client_profile ProfileFetcher.world
           ProfileFetcher.fetcher ProfileFetcher.__client].
      pose proof (bigtable_get_read_only controller client_id w) as Hread.
      destruct (BigTableProfileController.get_client_profile controller client_id w)
        as [r w1].
      exact Hread.
    - cbn [ProfileFetcher.client_get_client_profile ProfileFetcher.world
           ProfileFetcher.fetcher ProfileFetcher.__client].
      pose proof (key_value_get_read_only controller client_id w) as Hread.
      destruct (ProfileController.get_client_profile controller client_id w)
        as [r w1].
      exact Hread.
    - unfold BigTableProfileController.init, bind, check_fault, emit, ret.
      cbn [ProfileFetcher.world ProfileFetcher.fetcher ProfileFetcher.__client].
      destruct (bigtable_credentials w) as [e|] eqn:Hcredentials;
        [apply only_trace_differs_refl|].
      cbn [ProfileFetcher.world ProfileFetcher.fetcher ProfileFetcher.__client
           ProfileFetcher.client_get_client_profile].
      match goal with
      | |- context [BigTableProfileController.get_client_profile ?c ?i ?w1] =>
          pose proof (bigtable_get_read_only c i w1) as Hread;
          destruct (BigTableProfileController.get_client_profile c i w1) as [r w2]
      end.
      cbn [snd ProfileFetcher.world] in *.
      eapply only_trace_differs_trans; [|exact Hread]. repeat split. }
  unfold bind.
  destruct (ProfileFetcher.lookup client_id _) as [[profile_data|e] s'];
    cbn [snd] in Hlookup; [|exact Hlookup].
  destruct profile_data; exact Hlookup.
Qed.

Lemma get_read_only_witness :
  only_trace_differs Scenario.corrupt_world
    (ProfileFetcher.world
       (snd (ProfileFetcher.get (H := Sample.imports) "abc123"
               (Scenario.fetcher_state
                  (Some (DynamoDB Scenario.dynamo_controller))
                  Scenario.corrupt_world)))).
Proof.
  exact
    (get_read_only (H := Sample.imports) "abc123"
       (Scenario.fetcher_state
          (Some (DynamoDB Scenario.dynamo_controller)) Scenario.corrupt_world)
       I).
Defined.

(** ** The wide-column controller: writing *)

(** [set_client_profile] on a record with a string [client_id] that
    [json.dumps] renders: one mutation, refused by an unreachable store. *)
Lemma set_client_profile_eq `{Imports}
    (self : BigTableProfileController.t) (client_profile : value)
    (client_id : string) (payload : bytes) (w : World) :
  py_getitem client_profile "client_id" = Ok (VStr client_id) ->
  BigTableProfileController.encode_payload client_profile = Ok payload ->
  BigTableProfileController.set_client_profile self client_profile w
  = match bigtable_fault w with
    | Some e =>
        (Raise e,
         logged (MutateRows (BigTableProfileController._table_id self)
                   (str_encode client_id)) w)
    | None => (Ok tt, written self (str_encode client_id) payload w)
    end.
Proof.
  intros Hid Hpayload. destruct w as [rows fault credentials items ddb_fault now events].
  unfold BigTableProfileController.set_client_profile,
    BigTableProfileController.mutate_row, set_bigtable_rows,
    bind, emit, check_fault, ask, lift_result, ret, logged, written.
  rewrite Hid. cbn [py_encode]. rewrite Hpayload.
  cbn [bigtable_fault bigtable_rows bigtable_credentials dynamo_items
       dynamo_fault utcnow trace snd].
  destruct fault; reflexivity.
Qed.

(** A failing [set_client_profile] fails before the mutation, leaving the
    world as it is, or at the mutation that an unreachable store refuses. *)
Lemma set_client_profile_raise `{Imports}
    (self : BigTableProfileController.t) (client_profile : value)
    (w w' : World) (e : exn) :
  BigTableProfileController.set_client_profile self client_profile w = (Raise e, w') ->
  w' = w
  \/ exists client_id,
       bigtable_fault w = Some e
       /\ w' = logged (MutateRows (BigTableProfileController._table_id self)
                        (str_encode client_id)) w.
Proof.
  destruct (py_getitem client_profile "client_id") as [id|e1] eqn:Hid.
  - destruct id as [| | | |client_id| |];
      try (unfold BigTableProfileController.set_client_profile, bind, lift_result;
           rewrite Hid; cbn [py_encode]; intros [= <- <-]; now left).
    destruct (BigTableProfileController.encode_payload client_profile)
      as [payload|e2] eqn:Hpayload.
    + rewrite (set_client_profile_eq self client_profile client_id payload w Hid Hpayload).
      destruct (bigtable_fault w) as [fault|]; [|discriminate].
      intros [= <- <-]. right. eauto.
    + unfold BigTableProfileController.set_client_profile, bind, lift_result.
      rewrite Hid. cbn [py_encode]. rewrite Hpayload. intros [= <- <-]. now left.
  - unfold BigTableProfileController.set_client_profile, bind, lift_result.
    rewrite Hid. intros [= <- <-]. now left.
Qed.

Lemma set_client_profile_ok `{Imports}
    (self : BigTableProfileController.t) (client_profile : value)
    (client_id : string) (w w' : World) :
  py_getitem client_profile "client_id" = Ok (VStr client_id) ->
  BigTableProfileController.set_client_profile self client_profile w = (Ok tt, w') ->
  exists payload,
    BigTableProfileController.encode_payload client_profile = Ok payload
    /\ bigtable_fault w = None
    /\ w' = written self (str_encode client_id) payload w.
Proof.
  intros Hid.
  destruct (BigTableProfileController.encode_payload client_profile)
    as [payload|e] eqn:Hpayload.
  - rewrite (set_client_profile_eq self client_profile client_id payload w Hid Hpayload).
    destruct (bigtable_fault w); [discriminate|]. intros [= <-]. eauto.
  - unfold BigTableProfileController.set_client_profile, bind, lift_result.
    rewrite Hid. cbn [py_encode]. rewrite Hpayload. discriminate.
Qed.

(** X13: [set_client_profile] refuses a record before it reaches the store:
    a mapping without ["client_id"] with [KeyError], a ["client_id"] that is
    not a string with [AttributeError], a record that is not a mapping with
    [TypeError], a record that [json.dumps] refuses with the exception of
    [json.dumps]; in each case the world, its trace included, is as it
    was. *)
Theorem set_client_profile_rejects `{Imports}
    (self : BigTableProfileController.t) (client_profile : value) (w : World) :
  (forall items,
     client_profile = VDict items ->
     dict_lookup "client_id" items = None ->
     BigTableProfileController.set_client_profile self client_profile w
     = (Raise (KeyError "client_id"), w))
  /\ (forall items id,
        client_profile = VDict items ->
        dict_lookup "client_id" items = Some id ->
        (forall text, id <> VStr text) ->
        BigTableProfileController.set_client_profile self client_profile w
        = (Raise (AttributeError "encode"), w))
  /\ (is_mapping client_profile = false ->
      BigTableProfileController.set_client_profile self client_profile w
      = (Raise TypeError, w))
  /\ (forall client_id e,
        py_getitem client_profile "client_id" = Ok (VStr client_id) ->
        json_dumps client_profile = Raise e ->
        BigTableProfileController.set_client_profile self client_profile w
        = (Raise e, w)).
Proof.
  unfold BigTableProfileController.set_client_profile, bind, lift_result.
  repeat split.
  - intros items -> Hmissing. cbn [py_getitem]. now rewrite Hmissing.
  - intros items id -> Hpresent Hkind. cbn [py_getitem]. rewrite Hpresent.
    destruct id; try reflexivity. now destruct (Hkind s).
  - intros Hkind. now destruct client_profile.
  - intros client_id e Hid Hdumps. rewrite Hid. cbn [py_encode].
    unfold BigTableProfileController.encode_payload. now rewrite Hdumps.
Qed.

Lemma set_client_profile_rejects_witness :
  BigTableProfileController.set_client_profile (H := Sample.imports)
    Scenario.bigtable_controller (VDict [("city", VStr "Paris")]) Scenario.empty_world
  = (Raise (KeyError "client_id"), Scenario.empty_world)
  /\ BigTableProfileController.set_client_profile (H := Sample.imports)
       Scenario.bigtable_controller (VDict [("client_id", VInt 7)]) Scenario.empty_world
     = (Raise (AttributeError "encode"), Scenario.empty_world).
Proof.
  split.
  - exact
      (proj1
         (set_client_profile_rejects (H := Sample.imports)
            Scenario.bigtable_controller (VDict [("city", VStr "Paris")])
            Scenario.empty_world)
         [("city", VStr "Paris")] eq_refl eq_refl).
  - refine
      (proj1 (proj2
         (set_client_profile_rejects (H := Sample.imports)
            Scenario.bigtable_controller (VDict [("client_id", VInt 7)])
            Scenario.empty_world))
         [("client_id", VInt 7)] (VInt 7) eq_refl eq_refl _).
    discriminate.
Defined.

(** X14: a [set_client_profile] that raises has written nothing: the rows
    of the table, like everything else in the world beside the trace, are
    as they were. *)
Theorem set_client_profile_failure_writes_nothing `{Imports}
    (self : BigTableProfileController.t) (client_profile : value)
    (w w' : World) (e : exn) :
  BigTableProfileController.set_client_profile self client_profile w = (Raise e, w') ->
  only_trace_differs w w'.
Proof.
  intros Hraise.
  destruct (set_client_profile_raise self client_profile w w' e Hraise)
    as [-> | [client_id [_ ->]]].
  - apply only_trace_differs_refl.
  - apply only_trace_differs_logged.
Qed.

Lemma set_client_profile_failure_writes_nothing_witness :
  only_trace_differs unreachable_world
    (snd (BigTableProfileController.set_client_profile (H := Sample.imports)
            Scenario.bigtable_controller Scenario.paris_record unreachable_world)).
Proof.
  apply
    (set_client_profile_failure_writes_nothing (H := Sample.imports)
       Scenario.bigtable_controller Scenario.paris_record unreachable_world
       (snd (BigTableProfileController.set_client_profile (H := Sample.imports)
               Scenario.bigtable_controller Scenario.paris_record unreachable_world))
       (TransportError "deadline exceeded")).
  vm_compute. reflexivity.
Defined.

(** What a read finds after a write under the same key. *)
Lemma stored_versions_written (self : BigTableProfileController.t)
    (row_key payload : bytes) (w : World) :
  stored_versions self row_key (written self row_key payload w)
  = BigTableProfileController.insert_cell
      {| cell_value := payload; cell_timestamp := utcnow w |}
      (stored_versions self row_key w).
Proof.
  unfold stored_versions, written, BigTableProfileController.set_cell.
  cbn [bigtable_rows].
  rewrite lookup_insert_eq. cbn [default from_option id].
  rewrite lookup_insert_eq. cbn [default from_option id].
  rewrite lookup_insert_eq. reflexivity.
Qed.

Lemma newest_payload_stored (self : BigTableProfileController.t)
    (row_key : bytes) (w : World) (newest : Cell) (older : list Cell) :
  stored_versions self row_key w = newest :: older ->
  newest_payload
    (BigTableProfileController._column_family_id self)
    (BigTableProfileController._column_name self)
    (bigtable_rows w !! row_key)
  = Ok (cell_value newest).
Proof.
  unfold stored_versions, newest_payload.
  destruct (bigtable_rows w !! row_key) as [cells|]; cbn [default from_option id].
  - destruct (cells !! BigTableProfileController._column_family_id self) as [columns|];
      cbn [default from_option id].
    + destruct (columns !! BigTableProfileController._column_name self) as [versions|];
        cbn [default from_option id]; [|discriminate].
      now intros ->.
    + rewrite lookup_empty. discriminate.
    - rewrite lookup_empty. cbn [default from_option id]. rewrite lookup_empty.
    discriminate.
Qed.

Lemma insert_cell_cons (c : Cell) (versions : list Cell) :
  exists newest older,
    BigTableProfileController.insert_cell c versions = newest :: older.
Proof.
  destruct versions as [|c' rest]; cbn; [eauto|].
  destruct (Z.ltb _ _); [eauto|]. destruct (Z.eqb _ _); eauto.
Qed.

(** The read of a client identifier just written, on a reachable store. *)
Lemma get_after_written `{Imports}
    (self : BigTableProfileController.t) (client_id : string)
    (payload : bytes) (w : World) (newest : Cell) :
  bigtable_fault w = None ->
  head (BigTableProfileController.insert_cell
          {| cell_value := payload; cell_timestamp := utcnow w |}
          (stored_versions self (str_encode client_id) w)) = Some newest ->
  fst (BigTableProfileController.get_client_profile self client_id
         (written self (str_encode client_id) payload w))
  = BigTableProfileController.decode_payload (cell_value newest).
Proof.
  intros Hreachable Hhead. rewrite bigtable_get_eq. cbn [fst].
  change (bigtable_fault (written self (str_encode client_id) payload w))
    with (bigtable_fault w).
  rewrite Hreachable.
  destruct (insert_cell_cons
              {| cell_value := payload; cell_timestamp := utcnow w |}
              (stored_versions self (str_encode client_id) w))
    as [first [older Hversions]].
  rewrite Hversions in Hhead. injection Hhead as ->.
  rewrite <- stored_versions_written in Hversions.
  now rewrite (newest_payload_stored _ _ _ _ _ Hversions).
Qed.

(** X15: a successful [set_client_profile] touches the row of its client
    identifier only: every other row of the table and every item of the
    key-value store is as it was, and what [get_client_profile] returns for
    a client identifier with another row key is what it returned before. *)
Theorem set_client_profile_frame `{Imports}
    (self : BigTableProfileController.t) (client_profile : value)
    (client_id : string) (w w' : World) :
  py_getitem client_profile "client_id" = Ok (VStr client_id) ->
  BigTableProfileController.set_client_profile self client_profile w = (Ok tt, w') ->
  (forall row_key,
     row_key <> str_encode client_id ->
     bigtable_rows w' !! row_key = bigtable_rows w !! row_key)
  /\ dynamo_items w' = dynamo_items w
  /\ (forall reader other,
        str_encode other <> str_encode client_id ->
        fst (BigTableProfileController.get_client_profile reader other w')
        = fst (BigTableProfileController.get_client_profile reader other w)).
Proof.
  intros Hid Hset.
  destruct (set_client_profile_ok self client_profile client_id w w' Hid Hset)
    as [payload [_ [_ ->]]].
  assert (Hrows : forall row_key,
             row_key <> str_encode client_id ->
             bigtable_rows (written self (str_encode client_id) payload w) !! row_key
             = bigtable_rows w !! row_key).
  { intros row_key Hother. unfold written. cbn [bigtable_rows].
    now rewrite lookup_insert_ne. }
  split; [exact Hrows|]. split; [reflexivity|].
  intros reader other Hother. rewrite !bigtable_get_eq. cbn [fst].
  now rewrite (Hrows (str_encode other) Hother).
Qed.

Lemma set_client_profile_frame_witness :
  fst (BigTableProfileController.get_client_profile (H := Sample.imports)
         Scenario.bigtable_controller "abc123"
         (snd (BigTableProfileController.set_client_profile (H := Sample.imports)
                 Scenario.bigtable_controller
                 (VDict [("client_id", VStr "xyz789")]) corrupt_row_world)))
  = fst (BigTableProfileController.get_client_profile (H := Sample.imports)
           Scenario.bigtable_controller "abc123" corrupt_row_world).
Proof.
  refine
    (proj2 (proj2
       (set_client_profile_frame (H := Sample.imports)
          Scenario.bigtable_controller (VDict [("client_id", VStr "xyz789")])
          "xyz789" corrupt_row_world
          (snd (BigTableProfileController.set_client_profile (H := Sample.imports)
                  Scenario.bigtable_controller
                  (VDict [("client_id", VStr "xyz789")]) corrupt_row_world))
          eq_refl _))
       Scenario.bigtable_controller "abc123" _).
  - set (written_world :=
           snd (BigTableProfileController.set_client_profile (H := Sample.imports)
                  Scenario.bigtable_controller
                  (VDict [("client_id", VStr "xyz789")]) corrupt_row_world)).
    unfold BigTableProfileController.set_client_profile, bind, lift_result.
    reflexivity.
  - vm_compute. discriminate.
Defined.

Lemma Forall_insert_cell (P : Cell -> Prop) (c : Cell) (versions : list Cell) :
  P c -> Forall P versions ->
  Forall P (BigTableProfileController.insert_cell c versions).
Proof.
  intros Hc. induction 1 as [|c' rest Hc' Hrest IH]; cbn.
  - now constructor.
  - destruct (Z.ltb _ _); [now repeat constructor|].
    destruct (Z.eqb _ _); now constructor.
Qed.

(** A version stored with a later timestamp than the written cell stays the
    most recent one. *)
Lemma head_insert_cell_stale (c newest : Cell) (older : list Cell) :
  cell_timestamp c < cell_timestamp newest ->
  head (BigTableProfileController.insert_cell c (newest :: older)) = Some newest.
Proof.
  intros Hstale. cbn [BigTableProfileController.insert_cell].
  destruct (Z.ltb_spec (cell_timestamp newest) (cell_timestamp c)); [lia|].
  destruct (Z.eqb_spec (cell_timestamp newest) (cell_timestamp c)); [lia|].
  reflexivity.
Qed.

(** X16: the last write wins. After two successful [set_client_profile]
    for the same client identifier, the second no earlier than the first
    and the first no earlier than the versions it found,
    [get_client_profile] returns the second record, provided the payload of
    that record decodes back to it. *)
Theorem last_write_wins `{Imports}
    (self : BigTableProfileController.t) (first second : value)
    (client_id : string) (payload : bytes) (w w1 w2 : World) (later : Z) :
  py_getitem first "client_id" = Ok (VStr client_id) ->
  py_getitem second "client_id" = Ok (VStr client_id) ->
  Forall (fun c => cell_timestamp c <= utcnow w)
    (stored_versions self (str_encode client_id) w) ->
  BigTableProfileController.set_client_profile self first w = (Ok tt, w1) ->
  utcnow w <= later ->
  BigTableProfileController.set_client_profile self second (at_time later w1)
  = (Ok tt, w2) ->
  BigTableProfileController.encode_payload second = Ok payload ->
  BigTableProfileController.decode_payload payload = Ok second ->
  fst (BigTableProfileController.get_client_profile self client_id w2) = Ok second.
Proof.
  intros Hfirst Hsecond Hold Hset1 Hlater Hset2 Hencode Hdecode.
  destruct (set_client_profile_ok self first client_id w w1 Hfirst Hset1)
    as [payload1 [_ [Hreachable ->]]].
  destruct (set_client_profile_ok self second client_id _ w2 Hsecond Hset2)
    as [payload2 [Hencode2 [Hreachable2 ->]]].
  rewrite Hencode in Hencode2. injection Hencode2 as <-.
  rewrite (get_after_written self client_id payload _
             {| cell_value := payload; cell_timestamp := later |} Hreachable2);
    [exact Hdecode|].
  apply head_insert_cell.
  change (stored_versions self (str_encode client_id)
            (at_time later (written self (str_encode client_id) payload1 w)))
    with (stored_versions self (str_encode client_id)
            (written self (str_encode client_id) payload1 w)).
  rewrite stored_versions_written.
  apply Forall_insert_cell; [exact Hlater|].
  eapply Forall_impl; [exact Hold|].
  intros c Hc. cbn [cell_timestamp utcnow at_time] in *. lia.
Qed.

Lemma last_write_wins_witness :
  fst (BigTableProfileController.get_client_profile (H := Sample.imports)
         Scenario.bigtable_controller "abc123"
         (snd (BigTableProfileController.set_client_profile (H := Sample.imports)
                 Scenario.bigtable_controller Scenario.paris_record
                 (at_time 1572825600000001
                    (snd (BigTableProfileController.set_client_profile
                            (H := Sample.imports) Scenario.bigtable_controller
                            (VDict [("client_id", VStr "abc123"); ("city", VStr "Lyon")])
                            Scenario.empty_world))))))
  = Ok Scenario.paris_record.
Proof.
  refine
    (last_write_wins (H := Sample.imports) Scenario.bigtable_controller
       (VDict [("client_id", VStr "abc123"); ("city", VStr "Lyon")])
       Scenario.paris_record "abc123"
       (Sample.compress (Sample.utf8_encode Scenario.paris_text))
       Scenario.empty_world _ _ 1572825600000001
       eq_refl eq_refl _ _ _ _ _ _).
  - replace
      (stored_versions Scenario.bigtable_controller
         (str_encode (Imports := Sample.imports) "abc123") Scenario.empty_world)
      with (@nil Cell) by (vm_compute; reflexivity).
    constructor.
  - unfold BigTableProfileController.set_client_profile, bind, lift_result.
    reflexivity.
  - cbn. lia.
  - unfold BigTableProfileController.set_client_profile, bind, lift_result.
    reflexivity.
  - vm_compute. reflexivity.
  - vm_compute. reflexivity.
Defined.

(** X17: a write stamped earlier than the version the table already holds
    is not read back. When the clock of the writer is behind the timestamp
    of the most recent stored version, [get_client_profile] after a
    successful [set_client_profile] still returns the decoding of that
    stored version, not the record just written. *)
Theorem stale_write_not_read `{Imports}
    (self : BigTableProfileController.t) (client_profile : value)
    (client_id : string) (w w' : World) (newest : Cell) (older : list Cell) :
  py_getitem client_profile "client_id" = Ok (VStr client_id) ->
  stored_versions self (str_encode client_id) w = newest :: older ->
  utcnow w < cell_timestamp newest ->
  BigTableProfileController.set_client_profile self client_profile w = (Ok tt, w') ->
  fst (BigTableProfileController.get_client_profile self client_id w')
  = BigTableProfileController.decode_payload (cell_value newest).
Proof.
  intros Hid Hstored Hstale Hset.
  destruct (set_client_profile_ok self client_profile client_id w w' Hid Hset)
    as [payload [_ [Hreachable ->]]].
  apply (get_after_written self client_id payload w newest Hreachable).
  rewrite Hstored. now apply head_insert_cell_stale.
Qed.

(** The record written at an earlier time than the stored one is not the
    one read back. *)
Lemma stale_write_not_read_witness :
  fst (BigTableProfileController.get_client_profile (H := Sample.imports)
         Scenario.bigtable_controller "abc123"
         (snd (BigTableProfileController.set_client_profile (H := Sample.imports)
                 Scenario.bigtable_controller Scenario.paris_record
                 (at_time 1000 lyon_world))))
  = Ok lyon_record.
Proof.
  assert (Hstored :
            stored_versions Scenario.bigtable_controller
              (str_encode (Imports := Sample.imports) "abc123")
              (at_time 1000 lyon_world)
            = [ {| cell_value :=
                     Sample.compress
                       (Sample.utf8_encode
                          (match Sample.dumps lyon_record with
                           | Ok text => text
                           | Raise _ => EmptyString
                           end));
                   cell_timestamp := 1572825600000000 |} ])
    by (vm_compute; reflexivity).
  rewrite
    (stale_write_not_read (H := Sample.imports) Scenario.bigtable_controller
       Scenario.paris_record "abc123" (at_time 1000 lyon_world)
       (snd (BigTableProfileController.set_client_profile (H := Sample.imports)
               Scenario.bigtable_controller Scenario.paris_record
               (at_time 1000 lyon_world)))
       _ [] eq_refl Hstored).
  - vm_compute. reflexivity.
  - cbn. lia.
  - unfold BigTableProfileController.set_client_profile, bind, lift_result.
    reflexivity.
Defined.

(** ** Writing, then fetching *)





(** ** The key-value controller: what it returns and what it logs *)

(** X19: on a reachable store, for an item whose [json_payload] is a
    [Binary] that decompresses, decodes and parses,
    [ProfileController.get_client_profile] returns the parsed value, logs
    nothing, and the world gains the one read. *)
Theorem key_value_get_returns_record `{Imports}
    (self : ProfileController.t) (client_id : string) (w : World)
    (item : gmap string Attribute) (payload : bytes) (record : value) :
  dynamo_fault w = None ->
  dynamo_items w !! client_id = Some item ->
  item !! "json_payload" = Some (Binary payload) ->
  (raw <- zlib_decompress payload ;; text <- bytes_decode raw ;; json_loads text)%py
  = Ok record ->
  ProfileController.get_client_profile self client_id w
  = (Ok record, logged (GetItem client_id) w).
Proof.
  intros Hreachable Hitem Hattribute Hdecode.
  apply try_except_ok.
  rewrite (read_item_reachable self client_id w Hreachable), Hitem, Hattribute.
  cbn [ProfileController.binary_value rbind]. now rewrite Hdecode.
Qed.

Lemma key_value_get_returns_record_witness :
  fst (ProfileController.get_client_profile (H := Sample.imports)
         Scenario.dynamo_controller "abc123" stored_item_world)
  = Ok lyon_record.
Proof.
  rewrite
    (key_value_get_returns_record (H := Sample.imports)
       Scenario.dynamo_controller "abc123" stored_item_world
       {[ "json_payload" := Binary lyon_payload ]} lyon_payload lyon_record
       eq_refl
       (lookup_singleton_eq (M := gmap string) _ _)
       (lookup_singleton_eq (M := gmap string) _ _)).
  - reflexivity.
  - vm_compute. reflexivity.
Defined.

(** X20: [ProfileController.get_client_profile] logs a failure of the read
    unless it is a [KeyError]. A missing item and an item without
    [json_payload] give [None] in silence; any other exception of the body
    of the [try] gives [None] after one debug record that carries the
    client identifier and the exception. *)
Theorem key_value_get_logging `{Imports}
    (self : ProfileController.t) (client_id : string) (w : World) :
  (dynamo_fault w = None ->
   dynamo_items w !! client_id = None ->
   ProfileController.get_client_profile self client_id w
   = (Ok VNone, logged (GetItem client_id) w))
  /\ (forall item,
        dynamo_fault w = None ->
        dynamo_items w !! client_id = Some item ->
        item !! "json_payload" = None ->
        ProfileController.get_client_profile self client_id w
        = (Ok VNone, logged (GetItem client_id) w))
  /\ (forall e w',
        ProfileController.read_item self client_id w = (Raise e, w') ->
        (forall key, e <> KeyError key) ->
        ProfileController.get_client_profile self client_id w
        = (Ok VNone,
           logged
             (LogDebug "Error loading client data for {}.  Error: {}" client_id (Some e))
             w')).
Proof.
  repeat split.
  - intros Hreachable Hmissing.
    unfold ProfileController.get_client_profile.
    erewrite try_except_raise;
      [|now rewrite (read_item_reachable self client_id w Hreachable), Hmissing].
    reflexivity.
  - intros item Hreachable Hitem Hattribute.
    unfold ProfileController.get_client_profile.
    erewrite try_except_raise;
      [|now rewrite (read_item_reachable self client_id w Hreachable), Hitem, Hattribute].
    reflexivity.
  - intros e w' Hbody Hkind.
    unfold ProfileController.get_client_profile.
    rewrite (try_except_raise _ _ _ _ _ Hbody).
    destruct e; try reflexivity. now destruct (Hkind key).
Qed.

Lemma key_value_get_logging_witness :
  ProfileController.get_client_profile (H := Sample.imports)
    Scenario.dynamo_controller "abc123" Scenario.empty_world
  = (Ok VNone, logged (GetItem "abc123") Scenario.empty_world).
Proof.
  exact
    (proj1
       (key_value_get_logging (H := Sample.imports)
          Scenario.dynamo_controller "abc123" Scenario.empty_world)
       eq_refl (lookup_empty (M := gmap string) _)).
Defined.

Lemma key_value_get_ok `{Imports}
    (self : ProfileController.t) (client_id : string) (w : World) :
  exists v w', ProfileController.get_client_profile self client_id w = (Ok v, w').
Proof.
  destruct (ProfileController.read_item self client_id w) as [[v|e] w'] eqn:Hbody.
  - exists v, w'. now apply try_except_ok.
  - unfold ProfileController.get_client_profile.
    rewrite (try_except_raise _ _ _ _ _ Hbody). destruct e; cbn; eauto.
Qed.

(** X21: with the key-value controller as its client, the only exceptions
    that leave [get] are those of normalization: when [get] raises on an
    identifier outside the reserved sets, the controller has returned a
    value and it is the normalization of that value that raises. No
    transport error and no failure of decompression, decoding or parsing
    reaches the caller. *)
Theorem get_key_value_raises_only_from_normalize `{Imports}
    (client_id : string) (s s' : ProfileFetcher.State)
    (controller : ProfileController.t) (e : exn) :
  ~ (In client_id TEST_CLIENT_IDS \/ In client_id EMPTY_TEST_CLIENT_IDS) ->
  ProfileFetcher.__client (ProfileFetcher.fetcher s) = Some (DynamoDB controller) ->
  ProfileFetcher.get client_id s = (Raise e, s') ->
  exists profile_data,
    fst (ProfileController.get_client_profile controller client_id
           (ProfileFetcher.world s)) = Ok profile_data
    /\ normalize client_id profile_data = Raise e.
Proof.
  intros Hfree Hclient. rewrite (get_unfold client_id s Hfree).
  unfold ProfileFetcher.lookup, ProfileFetcher._client, ProfileFetcher.in_world,
    bind, ask, ret.
  rewrite Hclient. cbn [ProfileFetcher.client_get_client_profile].
  destruct (key_value_get_ok controller client_id (ProfileFetcher.world s))
    as [v [w' ->]].
  cbn [fst].
  destruct v; try discriminate;
    intros Hraise; apply (f_equal fst) in Hraise;
    eexists; (split; [reflexivity | exact Hraise]).
Qed.

(** A stored payload that parses to a list. *)
Lemma get_key_value_raises_only_from_normalize_witness :
  exists profile_data,
    fst (ProfileController.get_client_profile (H := Sample.imports)
           Scenario.dynamo_controller "abc123" list_item_world) = Ok profile_data
    /\ normalize "abc123" profile_data = Raise (AttributeError "get").
Proof.
  refine
    (get_key_value_raises_only_from_normalize (H := Sample.imports) "abc123"
       (Scenario.fetcher_state (Some (DynamoDB Scenario.dynamo_controller))
          list_item_world)
       (snd (ProfileFetcher.get (H := Sample.imports) "abc123"
               (Scenario.fetcher_state (Some (DynamoDB Scenario.dynamo_controller))
                  list_item_world)))
       Scenario.dynamo_controller (AttributeError "get") _ eq_refl _).
  - cbn. intros [Hin|Hin]; intuition discriminate.
  - vm_compute. reflexivity.
Defined.
